(** * GLaDOS overlay: the subprocess supervisor ([subrunner.py]) and the
      window geometry of the overlay ([main.py])

    The development embeds [ParallelRunner] and the module-level helpers of
    [subrunner.py] as state-passing functions over an explicit world (file
    system, clock, child processes, registry, console), and the geometry
    computation of [main.py] as integer arithmetic and string formatting. *)

From Stdlib Require Import ZArith String List Ascii Bool Arith Lia.
From Stdlib Require Import Decimal DecimalString DecimalPos DecimalZ.
Import ListNotations.

Local Open Scope string_scope.
Local Open Scope list_scope.
Local Open Scope nat_scope.

(* ================================================================== *)
(** ** Python strings *)

(** [str(n)] for an [int]: decimal digits, a leading minus for negatives. *)
Definition str_int (z : Z) : string := NilZero.string_of_int (Z.to_int z).

Definition newline : ascii := "010"%char.

(** [s.rstrip('\n')]: every trailing line feed is removed. *)
Fixpoint rstrip_nl (s : string) : string :=
  match s with
  | EmptyString => EmptyString
  | String c rest =>
      match rstrip_nl rest with
      | EmptyString => if Ascii.eqb c newline then EmptyString
                       else String c EmptyString
      | String _ _ as r => String c r
      end
  end.

(** Truthiness of a [str]: only the empty string is falsy. *)
Definition str_truthy (s : string) : bool :=
  match s with
  | EmptyString => false
  | String _ _ => true
  end.

(** [tag or default] for [tag : Optional[str]]: [None] and [''] are both
    falsy, so both select the default. *)
Definition or_str (tag : option string) (default : string) : string :=
  match tag with
  | Some t => if str_truthy t then t else default
  | None => default
  end.

(* ================================================================== *)
(** ** Python dictionaries keyed by strings

    A [dict] keeps its entries in insertion order, and [list(d.keys())]
    follows that order; so the registry is an association list.  Assigning to
    a key that is present replaces the value in place, assigning to a new key
    appends.  Keys of a dictionary are pairwise distinct ([dict_ok]). *)

Section Dict.
Context {V : Type}.

Definition dict := list (string * V).

Fixpoint dict_get (k : string) (d : dict) : option V :=
  match d with
  | [] => None
  | (k', v) :: d' => if String.eqb k' k then Some v else dict_get k d'
  end.

(** [k in d] *)
Definition dict_mem (k : string) (d : dict) : bool :=
  match dict_get k d with
  | Some _ => true
  | None => false
  end.

(** [d[k] = v] *)
Fixpoint dict_set (k : string) (v : V) (d : dict) : dict :=
  match d with
  | [] => [(k, v)]
  | (k', v') :: d' =>
      if String.eqb k' k then (k, v) :: d'
      else (k', v') :: dict_set k v d'
  end.

Definition dict_remove (k : string) (d : dict) : dict :=
  filter (fun kv => negb (String.eqb (fst kv) k)) d.

(** [del d[k]]: [None] stands for the [KeyError] of an absent key. *)
Definition dict_del (k : string) (d : dict) : option dict :=
  if dict_mem k d then Some (dict_remove k d) else None.

(** [list(d.keys())] *)
Definition dict_keys (d : dict) : list string := map fst d.

Definition dict_ok (d : dict) : Prop := NoDup (dict_keys d).

End Dict.

Arguments dict : clear implicits.

(* ================================================================== *)
(** ** Child processes as the operating system runs them *)

Inductive signal := SIGTERM | SIGKILL.

(** Seconds, on the wall clock of the world; timeouts, [float] in the
    source, are whole seconds here. *)
Definition seconds := nat.

(** A [subprocess.Popen] object together with the child behind it.
    [exit_at] is the instant at which the child exits and the return code it
    exits with ([None]: it keeps running until a signal changes that);
    [on_term] is how the child treats SIGTERM ([None]: it ignores it,
    [Some d]: it exits [d] seconds after receiving it); [signals] logs what
    was delivered, oldest first; [stdout] is what [readline] hands out. *)
Record Popen := mkPopen {
  pid : Z;
  cmd : list string;
  exit_at : option (seconds * Z);
  on_term : option seconds;
  signals : list signal;
  stdout : list string
}.

(** What a freshly spawned child is going to do; chosen by the operating
    system and the script, not by the supervisor. *)
Record Child := mkChild {
  c_pid : Z;
  c_life : option (seconds * Z);
  c_on_term : option seconds;
  c_stdout : list string
}.

Definition set_exit_at (e : option (seconds * Z)) (p : Popen) : Popen :=
  mkPopen (pid p) (cmd p) e (on_term p) (signals p) (stdout p).

Definition log_signal (s : signal) (p : Popen) : Popen :=
  mkPopen (pid p) (cmd p) (exit_at p) (on_term p) (signals p ++ [s]) (stdout p).

(** [p.poll()] at instant [t]: the return code once the child has exited. *)
Definition poll_at (t : seconds) (p : Popen) : option Z :=
  match exit_at p with
  | Some (e, rc) => if e <=? t then Some rc else None
  | None => None
  end.

(** Delivery of a signal at instant [t].  A child that has already exited is
    left alone ([send_signal] polls first).  SIGKILL ends the child at once;
    SIGTERM ends it [d] seconds later when it reacts to it, unless it exits
    by itself before. *)
Definition deliver (s : signal) (t : seconds) (p : Popen) : Popen :=
  match poll_at t p with
  | Some _ => p
  | None =>
      let p' := log_signal s p in
      match s with
      | SIGKILL => set_exit_at (Some (t, (-9)%Z)) p'
      | SIGTERM =>
          match on_term p with
          | None => p'
          | Some d =>
              match exit_at p with
              | Some (e, _) =>
                  if e <=? t + d then p'
                  else set_exit_at (Some (t + d, (-15)%Z)) p'
              | None => set_exit_at (Some (t + d, (-15)%Z)) p'
              end
          end
      end
  end.

(* ================================================================== *)
(** ** The world the supervisor runs in *)

(** A [Popen] object is known by its place in the heap: the registry, the
    drain task and [wait_all] hold the same object, not copies of it.  An
    output callback is known by a name; calling it is an [effect], and it
    returns normally. *)
Definition handle := nat.
Definition callback := nat.

(** One entry of [self.processes]. *)
Record Info := mkInfo {
  process : handle;
  thread : option nat;
  running : bool
}.

(** The closure of [read_output] held by a started thread. *)
Record Thread := mkThread {
  th_process : handle;
  th_process_id : string;
  th_show_output : bool;
  th_callback : option callback;
  th_finished : bool
}.

(** What the program does that an observer sees: a line printed on the
    console, or a call of an output callback with its argument. *)
Inductive effect :=
| Print (line : string)
| Call (cb : callback) (arg : string).

Record World := mkWorld {
  fs : list string;
  executable : string;
  now : seconds;
  heap : list Popen;
  threads : list Thread;
  processes : dict Info;
  trace : list effect
}.

Definition set_now (t : seconds) (w : World) : World :=
  mkWorld (fs w) (executable w) t (heap w) (threads w) (processes w) (trace w).
Definition set_heap (h : list Popen) (w : World) : World :=
  mkWorld (fs w) (executable w) (now w) h (threads w) (processes w) (trace w).
Definition set_threads (ts : list Thread) (w : World) : World :=
  mkWorld (fs w) (executable w) (now w) (heap w) ts (processes w) (trace w).
Definition set_processes (d : dict Info) (w : World) : World :=
  mkWorld (fs w) (executable w) (now w) (heap w) (threads w) d (trace w).
Definition set_trace (tr : list effect) (w : World) : World :=
  mkWorld (fs w) (executable w) (now w) (heap w) (threads w) (processes w) tr.

(** A [Popen] that stands for a handle outside the heap; handles held by a
    well-formed world are always inside it (see [world_ok]). *)
Definition no_popen : Popen := mkPopen 0 [] (Some (0, 0%Z)) None [] [].

Definition deref (h : handle) (w : World) : Popen := nth h (heap w) no_popen.

Fixpoint list_update {A} (n : nat) (f : A -> A) (l : list A) : list A :=
  match l, n with
  | [], _ => []
  | x :: l', O => f x :: l'
  | x :: l', S n' => x :: list_update n' f l'
  end.

(** [ParallelRunner()] in a given environment. *)
Definition init_world (files : list string) (exe : string) : World :=
  mkWorld files exe 0 [] [] [] [].

(* ================================================================== *)
(** ** Computations: state, exceptions, blocking *)

Inductive exn :=
| FileNotFoundError (path : string)
| KeyError (key : string)
| TimeoutExpired.

(** A call returns a value, raises, or never comes back. *)
Inductive outcome (A : Type) :=
| Ret (a : A) (w : World)
| Raise (e : exn) (w : World)
| Hang.

Arguments Ret {A} a w.
Arguments Raise {A} e w.
Arguments Hang {A}.

Definition M (A : Type) := World -> outcome A.

Definition ret {A} (a : A) : M A := fun w => Ret a w.

Definition bind {A B} (m : M A) (k : A -> M B) : M B :=
  fun w =>
    match m w with
    | Ret a w' => k a w'
    | Raise e w' => Raise e w'
    | Hang => Hang
    end.

Definition raise {A} (e : exn) : M A := fun w => Raise e w.

(** [try: body  except exc: handler] with the handler choosing by the
    exception it is given (it re-raises what it does not catch). *)
Definition try_except {A} (body : M A) (handler : exn -> M A) : M A :=
  fun w =>
    match body w with
    | Ret a w' => Ret a w'
    | Raise e w' => handler e w'
    | Hang => Hang
    end.

Definition gets {A} (f : World -> A) : M A := fun w => Ret (f w) w.
Definition modify (f : World -> World) : M unit := fun w => Ret tt (f w).

Declare Scope monad_scope.
Delimit Scope monad_scope with monad.
Notation "x <- m ;; k" := (bind m (fun x => k))
  (at level 61, m at next level, right associativity) : monad_scope.
Notation "m ;; k" := (bind m (fun _ => k))
  (at level 61, right associativity) : monad_scope.
Local Open Scope monad_scope.

(* ------------------------------------------------------------------ *)
(** *** The operating system and [subprocess] *)

(** [os.path.exists(path)] *)
Definition os_path_exists (path : string) : M bool :=
  gets (fun w => existsb (String.eqb path) (fs w)).

(** [subprocess.Popen(cmd, ...)]: a new object at the end of the heap.
    The interpreter is taken to start (no [OSError]). *)
Definition Popen_new (c : list string) (child : Child) : M handle :=
  fun w =>
    let life := match c_life child with
                | Some (n, rc) => Some (now w + n, rc)
                | None => None
                end in
    let p := mkPopen (c_pid child) c life (c_on_term child) []
                     (c_stdout child) in
    Ret (length (heap w)) (set_heap (heap w ++ [p]) w).

(** [process.poll()] *)
Definition Popen_poll (h : handle) : M (option Z) :=
  gets (fun w => poll_at (now w) (deref h w)).

Definition Popen_send (s : signal) (h : handle) : M unit :=
  modify (fun w => set_heap (list_update h (deliver s (now w)) (heap w)) w).

(** [process.terminate()] and [process.kill()] *)
Definition Popen_terminate (h : handle) : M unit := Popen_send SIGTERM h.
Definition Popen_kill (h : handle) : M unit := Popen_send SIGKILL h.

(** [process.wait(timeout=...)]: the clock moves to the exit of the child,
    or by the whole timeout when that comes first. *)
Definition Popen_wait (h : handle) (timeout : option seconds) : M Z :=
  fun w =>
    match exit_at (deref h w), timeout with
    | Some (e, rc), Some t =>
        if e <=? now w + t then Ret rc (set_now (Nat.max (now w) e) w)
        else Raise TimeoutExpired (set_now (now w + t) w)
    | Some (e, rc), None => Ret rc (set_now (Nat.max (now w) e) w)
    | None, Some t => Raise TimeoutExpired (set_now (now w + t) w)
    | None, None => Hang
    end.

(* ------------------------------------------------------------------ *)
(** *** The drain task, [read_output] *)

Definition is_some {A} (o : option A) : bool :=
  match o with Some _ => true | None => false end.

(** [callback(output)] *)
Definition invoke (cb : option callback) (arg : string) : list effect :=
  match cb with
  | Some c => [Call c arg]
  | None => []
  end.

(** The body of [if line:] in the loop. *)
Definition on_line (show_output : bool) (cb : option callback)
    (process_id line : string) : list effect :=
  let output := rstrip_nl line in
  if show_output && is_some cb then invoke cb output
  else if show_output then
    [Print (String.append "[" (String.append process_id
              (String.append "]: " output)))]
  else if is_some cb then invoke cb output
  else [].

(** The [while True] loop over what [readline] returns, each paired with
    what [process.poll()] would answer at that moment.  The result tells
    whether the loop reached its [break]. *)
Fixpoint read_output_loop (show_output : bool) (cb : option callback)
    (process_id : string) (reads : list (string * option Z))
    : list effect * bool :=
  match reads with
  | [] => ([], false)
  | (line, polled) :: rest =>
      if negb (str_truthy line) && is_some polled then ([], true)
      else
        let here := if str_truthy line
                    then on_line show_output cb process_id line
                    else [] in
        let (later, broke) :=
          read_output_loop show_output cb process_id rest in
        (here ++ later, broke)
  end.

Definition set_running (b : bool) (i : Info) : Info :=
  mkInfo (process i) (thread i) b.
Definition set_thread (t : option nat) (i : Info) : Info :=
  mkInfo (process i) t (running i).
Definition set_finished (t : Thread) : Thread :=
  mkThread (th_process t) (th_process_id t) (th_show_output t)
           (th_callback t) true.

(** The end of [read_output], under the lock. *)
Definition mark_not_running (process_id : string) (d : dict Info)
    : dict Info :=
  match dict_get process_id d with
  | Some i => dict_set process_id (set_running false i) d
  | None => d
  end.

(** [threading.Thread(target=read_output)] and [thread.start()] *)
Definition Thread_start (t : Thread) : M nat :=
  fun w => Ret (length (threads w)) (set_threads (threads w ++ [t]) w).

(** [thread.join()]: the drain task runs to its end, which it reaches once
    the child has exited and its output is read. *)
Definition Thread_join (tid : nat) : M unit :=
  fun w =>
    match nth_error (threads w) tid with
    | None => Ret tt w
    | Some t =>
        if th_finished t then Ret tt w
        else
          let p := deref (th_process t) w in
          match exit_at p with
          | None => Hang
          | Some (e, rc) =>
              let reads := map (fun l => (l, Some rc)) (stdout p)
                           ++ [("", Some rc)] in
              let out := fst (read_output_loop (th_show_output t)
                                (th_callback t) (th_process_id t) reads) in
              Ret tt
                (mkWorld (fs w) (executable w) (Nat.max (now w) e) (heap w)
                   (list_update tid set_finished (threads w))
                   (mark_not_running (th_process_id t) (processes w))
                   (trace w ++ out))
          end
    end.

(* ================================================================== *)
(** ** [class ParallelRunner] *)

Module ParallelRunner.

(** [self.processes[process_id]], a [KeyError] when the key is absent. *)
Definition getitem (process_id : string) : M Info :=
  fun w =>
    match dict_get process_id (processes w) with
    | Some i => Ret i w
    | None => Raise (KeyError process_id) w
    end.

(** [del self.processes[process_id]] *)
Definition delitem (process_id : string) : M unit :=
  fun w =>
    match dict_del process_id (processes w) with
    | Some d => Ret tt (set_processes d w)
    | None => Raise (KeyError process_id) w
    end.

(** [tag or f"proc_{process.pid}"] *)
Definition make_id (tag : option string) (pid_ : Z) : string :=
  or_str tag (String.append "proc_" (str_int pid_)).

(** [run]; [child] is the process that [Popen] starts. *)
Definition run (script_name : string) (args : option (list string))
    (show_output : bool) (cb : option callback) (wait : bool)
    (tag : option string) (child : Child) : M string :=
  found <- os_path_exists script_name ;;
  if negb found then raise (FileNotFoundError script_name)
  else
    exe <- gets executable ;;
    let cmd := [exe; script_name] ++
               match args with
               | Some (a :: l) => a :: l
               | _ => []
               end in
    process <- Popen_new cmd child ;;
    pid_ <- gets (fun w => pid (deref process w)) ;;
    let process_id := make_id tag pid_ in
    modify (fun w =>
      set_processes (dict_set process_id (mkInfo process None true)
                       (processes w)) w) ;;
    thread <- Thread_start
                (mkThread process process_id show_output cb false) ;;
    info <- getitem process_id ;;
    modify (fun w =>
      set_processes (dict_set process_id (set_thread (Some thread) info)
                       (processes w)) w) ;;
    (if wait
     then _ <- Popen_wait process None ;; Thread_join thread
     else ret tt) ;;
    ret process_id.

(** The first locked block of [stop]: the handle under [process_id]. *)
Definition lookup (process_id : string) : M (option handle) :=
  gets (fun w =>
    match dict_get process_id (processes w) with
    | Some i => Some (process i)
    | None => None
    end).

Definition stop (process_id : string) (force : bool) : M bool :=
  found <- lookup process_id ;;
  match found with
  | None => ret false
  | Some process =>
      polled <- Popen_poll process ;;
      match polled with
      | None =>
          (if force then Popen_kill process
           else Popen_terminate process) ;;
          try_except
            (_ <- Popen_wait process (Some 5) ;; ret tt)
            (fun e =>
               match e with
               | TimeoutExpired =>
                   if force
                   then Popen_kill process ;;
                        _ <- Popen_wait process None ;; ret tt
                   else ret tt
               | _ => raise e
               end) ;;
          delitem process_id ;;
          ret true
      | Some _ =>
          delitem process_id ;;
          ret true
      end
  end.

(** [ids = list(self.processes.keys())], under the lock. *)
Definition snapshot : M (list string) :=
  gets (fun w => dict_keys (processes w)).

(** [for pid in ids: self.stop(pid, force)] *)
Fixpoint stop_each (ids : list string) (force : bool) : M unit :=
  match ids with
  | [] => ret tt
  | pid_ :: rest => _ <- stop pid_ force ;; stop_each rest force
  end.

Definition stop_all (force : bool) : M unit :=
  ids <- snapshot ;;
  stop_each ids force.

Definition is_running (process_id : string) : M bool :=
  found <- lookup process_id ;;
  match found with
  | None => ret false
  | Some process =>
      polled <- Popen_poll process ;;
      ret (negb (is_some polled))
  end.

(** One value of the dictionary that [list] returns. *)
Record Status := mkStatus {
  st_pid : Z;
  st_running : bool;
  st_returncode : option Z;
  st_alive : bool
}.

Definition status_of (w : World) (info : Info) : Status :=
  let p := deref (process info) w in
  mkStatus (pid p) (negb (is_some (poll_at (now w) p)))
           (poll_at (now w) p) (running info).

(** [list]: built by assignment into an empty dictionary, in the order
    of [self.processes.items()]. *)
Definition list_ : M (dict Status) :=
  gets (fun w =>
    fold_left (fun result kv => dict_set (fst kv) (status_of w (snd kv)) result)
              (processes w) []).

Definition wait (process_id : string) (timeout : option seconds)
    : M (option Z) :=
  found <- lookup process_id ;;
  match found with
  | None => ret None
  | Some process =>
      try_except
        (rc <- Popen_wait process timeout ;; ret (Some rc))
        (fun e =>
           match e with
           | TimeoutExpired => ret None
           | _ => raise e
           end)
  end.

Fixpoint wait_each (ps : list handle) (timeout : option seconds)
    : M unit :=
  match ps with
  | [] => ret tt
  | process :: rest =>
      try_except
        (_ <- Popen_wait process timeout ;; ret tt)
        (fun e =>
           match e with
           | TimeoutExpired => ret tt
           | _ => raise e
           end) ;;
      wait_each rest timeout
  end.

Definition wait_all (timeout : option seconds) : M unit :=
  ps <- gets (fun w => map (fun kv => process (snd kv)) (processes w)) ;;
  wait_each ps timeout.

End ParallelRunner.

(* ================================================================== *)
(** ** Module-level functions of [subrunner.py], on the shared [_runner] *)

Definition run (script : string) (args : list string) (wait : bool)
    (tag : option string) (child : Child) : M string :=
  ParallelRunner.run script (Some args) true None wait tag child.

Definition stop (pid_ : string) (force : bool) : M bool :=
  ParallelRunner.stop pid_ force.

Definition stop_all (force : bool) : M unit :=
  ParallelRunner.stop_all force.

Definition kill (pid_ : string) : M bool :=
  ParallelRunner.stop pid_ true.

Definition kill_all : M unit :=
  ParallelRunner.stop_all true.

Definition is_running (pid_ : string) : M bool :=
  ParallelRunner.is_running pid_.

Definition list_processes : M (dict ParallelRunner.Status) :=
  ParallelRunner.list_.

Definition wait (pid_ : string) (timeout : option seconds) : M (option Z) :=
  ParallelRunner.wait pid_ timeout.

Definition wait_all (timeout : option seconds) : M unit :=
  ParallelRunner.wait_all timeout.

(* ================================================================== *)
(** ** [main.py]: where the overlay window goes *)

Definition right_offset : Z := 20.

(** [x = screen_width - img_width - right_offset] *)
Definition overlay_x (screen_width img_width : Z) : Z :=
  (screen_width - img_width - right_offset)%Z.

(** The four numbers that [root.geometry] is given. *)
Record Geometry := mkGeometry {
  g_width : Z;
  g_height : Z;
  g_x : Z;
  g_y : Z
}.

(** The f-string ["{w}x{h}+{x}+{y}"]. *)
Definition format_geometry (g : Geometry) : string :=
  String.append (str_int (g_width g))
    (String.append "x"
      (String.append (str_int (g_height g))
        (String.append "+"
          (String.append (str_int (g_x g))
            (String.append "+" (str_int (g_y g))))))).

Definition overlay_geometry (img_width img_height screen_width : Z)
    : Geometry :=
  let x := overlay_x screen_width img_width in
  mkGeometry img_width img_height x 0.

(** The argument of [root.geometry(...)]. *)
Definition geometry_argument (img_width img_height screen_width : Z)
    : string :=
  format_geometry (overlay_geometry img_width img_height screen_width).

(* ================================================================== *)
(** ** Derived notions used by the statements *)

(** The registry is a dictionary, and the handles it holds are objects of
    the heap. *)
Definition world_ok (w : World) : Prop :=
  dict_ok (processes w) /\
  forall k i, dict_get k (processes w) = Some i ->
              process i < length (heap w).

(** From [w] to [w']: the heap keeps its size, and every record of [w']
    is a record of [w] for the same process (records may be gone, and the
    [running] flag may have changed). *)
Definition steady (w w' : World) : Prop :=
  length (heap w') = length (heap w) /\
  (dict_ok (processes w) -> dict_ok (processes w')) /\
  forall k i', dict_get k (processes w') = Some i' ->
    exists i, dict_get k (processes w) = Some i /\ process i' = process i.

(** The identifier [run] chooses for a child. *)
Definition chosen_id (tag : option string) (child : Child) : string :=
  ParallelRunner.make_id tag (c_pid child).

(** The [Popen] object of a child spawned at instant [t] with command [c]. *)
Definition spawned (t : seconds) (c : list string) (child : Child) : Popen :=
  mkPopen (c_pid child) c
    (match c_life child with
     | Some (n, rc) => Some (t + n, rc)
     | None => None
     end)
    (c_on_term child) [] (c_stdout child).

(** The command line of [run]. *)
Definition command (exe script_name : string) (args : option (list string))
    : list string :=
  [exe; script_name] ++ match args with
                        | Some (a :: l) => a :: l
                        | _ => []
                        end.

(** The instant at which [process.wait(timeout=5)] comes back. *)
Definition grace_end (t : seconds) (p : Popen) : seconds :=
  match exit_at p with
  | Some (e, _) => if e <=? t + 5 then Nat.max t e else t + 5
  | None => t + 5
  end.

(** The four cases of line dispatch in the words of the specification:
    callback and show-output both set go to the callback, show-output alone
    prints, callback alone calls the callback, neither does nothing. *)
Definition dispatch_spec (show_output : bool) (cb : option callback)
    (process_id output : string) : list effect :=
  match show_output, cb with
  | true, Some c => [Call c output]
  | true, None =>
      [Print (String.append "[" (String.append process_id
                (String.append "]: " output)))]
  | false, Some c => [Call c output]
  | false, None => []
  end.

(** [c in s] for a character [c]. *)
Fixpoint mentions (c : ascii) (s : string) : bool :=
  match s with
  | EmptyString => false
  | String c' rest => Ascii.eqb c' c || mentions c rest
  end.

(** No line feed inside: what precedes the line end in a line that
    [readline] returns. *)
Fixpoint no_newline (s : string) : bool :=
  match s with
  | EmptyString => true
  | String c rest => negb (Ascii.eqb c newline) && no_newline rest
  end.

(** A read does not end the loop: a line, or an empty read while the child
    still runs. *)
Definition keeps_reading (r : string * option Z) : bool :=
  negb (negb (str_truthy (fst r)) && is_some (snd r)).

(** [stop_all] with one more thread: after the snapshot and the first [n]
    calls of [stop], another thread performs [other]; then the loop goes on
    with the rest of the snapshot. *)
Definition stop_all_during {A} (force : bool) (n : nat) (other : M A)
    : M A :=
  ids <- ParallelRunner.snapshot ;;
  ParallelRunner.stop_each (firstn n ids) force ;;
  a <- other ;;
  ParallelRunner.stop_each (skipn n ids) force ;;
  ret a.

(** Calls on the runner, and events of its environment. *)
Inductive call :=
| CallRun (script_name : string) (args : option (list string))
    (show_output : bool) (cb : option callback) (wait : bool)
    (tag : option string) (child : Child)
| CallStop (process_id : string) (force : bool)
| CallStopAll (force : bool)
| CallIsRunning (process_id : string)
| CallList
| CallWait (process_id : string) (timeout : option seconds)
| CallWaitAll (timeout : option seconds)
| DrainEnds (tid : nat)
| Sleep (n : seconds).

(** A call, returning the identifier when it launched something. *)
Definition perform (c : call) : M (option string) :=
  match c with
  | CallRun s a so cb wt tg ch =>
      id <- ParallelRunner.run s a so cb wt tg ch ;; ret (Some id)
  | CallStop id f => _ <- ParallelRunner.stop id f ;; ret None
  | CallStopAll f => ParallelRunner.stop_all f ;; ret None
  | CallIsRunning id => _ <- ParallelRunner.is_running id ;; ret None
  | CallList => _ <- ParallelRunner.list_ ;; ret None
  | CallWait id t => _ <- ParallelRunner.wait id t ;; ret None
  | CallWaitAll t => ParallelRunner.wait_all t ;; ret None
  | DrainEnds tid => Thread_join tid ;; ret None
  | Sleep n => modify (fun w => set_now (now w + n) w) ;; ret None
  end.

Definition launched_by (r : option string) (l : list string) : list string :=
  match r with
  | Some id => id :: l
  | None => l
  end.

(** [history l w]: [w] is reached from a new runner by calls made one after
    the other, and [l] lists the identifiers that [run] returned. *)
Inductive history : list string -> World -> Prop :=
| history_init : forall files exe, history [] (init_world files exe)
| history_ret : forall l w c r w',
    history l w -> perform c w = Ret r w' -> history (launched_by r l) w'
| history_raise : forall l w c e w',
    history l w -> perform c w = Raise e w' -> history l w'.

(* ------------------------------------------------------------------ *)
(** *** Sample worlds *)

Definition nl : string := String newline EmptyString.

Definition sample_world : World :=
  init_world ["limiter.py"; "a.py"; "b.py"] "python".

(** A child that never exits by itself and ignores SIGTERM. *)
Definition stubborn : Child := mkChild 4242 None None [String.append "tick" nl].

(** A child that never exits by itself and leaves 2 seconds after SIGTERM. *)
Definition polite : Child := mkChild 4243 None (Some 2) [].

(** A child that prints two lines and exits with code 0 after 3 seconds. *)
Definition brief : Child :=
  mkChild 4244 (Some (3, 0%Z)) None
          [String.append "A" nl; String.append "B" nl].

Definition world_after {A} (m : M A) (w : World) : World :=
  match m w with
  | Ret _ w' => w'
  | Raise _ w' => w'
  | Hang => w
  end.

(** [sample_world] after [run("limiter.py")] started a stubborn child. *)
Definition stubborn_world : World :=
  world_after (run "limiter.py" [] false None stubborn) sample_world.

(** [stubborn_world] after [stop("proc_4242")], not forced. *)
Definition stubborn_stopped : World :=
  world_after (ParallelRunner.stop "proc_4242" false) stubborn_world.

(** A child that never exits by itself and leaves 1 second after SIGTERM. *)
Definition latecomer : Child := mkChild 4245 None (Some 1) [].

(** [sample_world] after a first launch under the tag ["a"]. *)
Definition tagged_world : World :=
  world_after (run "a.py" [] false (Some "a") polite) sample_world.

(** [tagged_world] after [stop_all()] during which, between the snapshot
    and the first [stop], another thread ran [run("b.py", tag="a")]. *)
Definition overrun_world : World :=
  world_after
    (stop_all_during false 0 (run "b.py" [] false (Some "a") latecomer))
    tagged_world.

(* ================================================================== *)
(** ** [class Script], the scoped launch *)

Module Script.

(** A [Script] object.  The keyword arguments that [run] accepts are [wait]
    and [tag]; [pid] is [None] until [__enter__] has launched the script. *)
Record t := mk {
  script_name : string;
  args : list string;
  kw_wait : bool;
  kw_tag : option string;
  pid : option string
}.

(** [Script(script_name, *args, **kwargs)] *)
Definition init (script_name : string) (args : list string) (wait : bool)
    (tag : option string) : t :=
  mk script_name args wait tag None.

(** [__enter__]: [self.pid = run(...)], and the object itself is returned. *)
Definition enter (s : t) (child : Child) : M t :=
  id <- run (script_name s) (args s) (kw_wait s) (kw_tag s) child ;;
  ret (mk (script_name s) (args s) (kw_wait s) (kw_tag s) (Some id)).

(** Truthiness of [self.pid]: [None] and [''] are falsy. *)
Definition has_pid (s : t) : option string :=
  match pid s with
  | Some id => if str_truthy id then Some id else None
  | None => None
  end.

(** [__exit__]: [if self.pid and is_running(self.pid): stop(self.pid)] *)
Definition exit (s : t) : M unit :=
  match has_pid s with
  | Some id =>
      alive <- is_running id ;;
      if alive then _ <- stop id false ;; ret tt else ret tt
  | None => ret tt
  end.

(** [Script.stop]: [if self.pid: stop(self.pid)] *)
Definition stop (s : t) : M unit :=
  match has_pid s with
  | Some id => _ <- stop id false ;; ret tt
  | None => ret tt
  end.

(** [is_alive] *)
Definition is_alive (s : t) : M bool :=
  match has_pid s with
  | Some id => is_running id
  | None => ret false
  end.

(** [with Script(...) as s: body].  [__exit__] runs however the body is
    left and returns [None], so what the body raised is raised again. *)
Definition with_ {A} (s : t) (child : Child) (body : t -> M A) : M A :=
  fun w =>
    match enter s child w with
    | Ret s' w1 =>
        match body s' w1 with
        | Ret a w2 =>
            match exit s' w2 with
            | Ret _ w3 => Ret a w3
            | Raise e w3 => Raise e w3
            | Hang => Hang
            end
        | Raise e w2 =>
            match exit s' w2 with
            | Ret _ w3 => Raise e w3
            | Raise e' w3 => Raise e' w3
            | Hang => Hang
            end
        | Hang => Hang
        end
    | Raise e w1 => Raise e w1
    | Hang => Hang
    end.

End Script.

(* ================================================================== *)
(** ** [main.py]: start-up and shutdown of the overlay *)

Module Main.

Definition debug_esc_close : bool := true.
Definition glados_img_path : string := "img/glados.png".

(** The top-level window, as far as [main.py] configures it. *)
Record Root := mkRoot {
  overrideredirect : bool;
  topmost : bool;
  transparentcolor : option string;
  geometry : option string;
  label_bg : option string;
  bindings : list string;
  destroyed : bool
}.

(** [tk.Tk()] *)
Definition Tk : Root := mkRoot false false None None None [] false.

(** How the start of the program ends: in [root.mainloop()], with an
    exception that nothing catches, or never. *)
Inductive startup :=
| Mainloop (root : Root) (w : World)
| Crashed (e : exn) (root : option Root) (w : World)
| Blocked.

(** How a key press ends: back in the event loop, in [sys.exit(code)], with
    an exception, or never. *)
Inductive reaction :=
| Continue (root : Root) (w : World)
| Exited (code : Z) (root : Root) (w : World)
| Failed (e : exn) (root : Root) (w : World)
| Stuck.

Section Program.

(** [hw.write()], with the imports that precede it; the module [hw] is not
    among the sources, so the call is whatever it is. *)
Variable hw_write : M unit.
(** The size of [img/glados.png], when [Image.open] finds the file. *)
Variable image : option (Z * Z).
(** [root.winfo_screenwidth()] *)
Variable screen_width : Z.
(** The child that [limiter.py] runs as. *)
Variable limiter : Child.

(** The module body up to [root.mainloop()]. *)
Definition main (w : World) : startup :=
  match hw_write w with
  | Raise e w1 => Crashed e None w1
  | Hang => Blocked
  | Ret _ w1 =>
      match run "limiter.py" [] false None limiter w1 with
      | Raise e w2 => Crashed e None w2
      | Hang => Blocked
      | Ret _ w2 =>
          let root := mkRoot true true (Some "white") None None [] false in
          match image with
          | None => Crashed (FileNotFoundError glados_img_path) (Some root) w2
          | Some (img_width, img_height) =>
              let g := geometry_argument img_width img_height screen_width in
              Mainloop
                (mkRoot true true (Some "white") (Some g) (Some "white")
                   (if debug_esc_close then ["<Escape>"] else []) false)
                w2
          end
      end
  end.

End Program.

(** [stop_all] of [main.py]: [subrunner.stop_all()], [root.destroy()],
    [sys.exit(0)]. *)
Definition stop_all (root : Root) (w : World) : reaction :=
  match stop_all false w with
  | Ret _ w' =>
      Exited 0
        (mkRoot (overrideredirect root) (topmost root)
           (transparentcolor root) (geometry root) (label_bg root)
           (bindings root) true)
        w'
  | Raise e w' => Failed e root w'
  | Hang => Stuck
  end.

(** A key press in the event loop: the handler bound to the key runs. *)
Definition on_key (key : string) (root : Root) (w : World) : reaction :=
  if existsb (String.eqb key) (bindings root)
  then stop_all root w
  else Continue root w.

End Main.

(* ================================================================== *)
(** ** More derived notions *)

(** Distinct identifiers hold distinct [Popen] objects, and no identifier
    is the empty string. *)
Definition registry_sound (w : World) : Prop :=
  world_ok w /\
  (forall k k' i i',
     dict_get k (processes w) = Some i ->
     dict_get k' (processes w) = Some i' ->
     process i = process i' -> k = k') /\
  dict_mem "" (processes w) = false.

(** A process is settled by a stop: it has exited or, when the stop is not
    forced, SIGTERM was delivered to it. *)
Definition settled (force : bool) (t : seconds) (p : Popen) : Prop :=
  poll_at t p <> None \/ (force = false /\ In SIGTERM (signals p)).

(** [s] ends in a line feed. *)
Fixpoint ends_in_newline (s : string) : bool :=
  match s with
  | EmptyString => false
  | String c EmptyString => Ascii.eqb c newline
  | String _ rest => ends_in_newline rest
  end.

(** The string an effect carries. *)
Definition payload (e : effect) : string :=
  match e with
  | Print l => l
  | Call _ a => a
  end.

(** Two launches under the tag ["a"]: first [brief], then [polite], whose
    record replaces that of [brief] while the drain task of [brief] is
    still at work. *)
Definition reused_world : World :=
  world_after (run "b.py" [] false (Some "a") polite)
    (world_after (run "a.py" [] false (Some "a") brief) sample_world).

(** [stubborn_world] after a second launch, of [polite]. *)
Definition pair_world : World :=
  world_after (run "a.py" [] false None polite) stubborn_world.

(** A world in which [brief] was launched and waited for. *)
Definition waited_world : World :=
  world_after (run "a.py" [] true None brief) sample_world.

(** [sample_world] with [brief] launched and not waited for. *)
Definition brief_world : World :=
  world_after (run "a.py" [] false None brief) sample_world.

Arguments ParallelRunner.make_id : simpl never.

(** Unfolds the plumbing of [M]. *)
Ltac unfold_m :=
  unfold bind, ret, gets, modify, raise, try_except in *.

(* ================================================================== *)
(** * Properties *)

(** ** Dictionaries *)

Section DictFacts.
Context {V : Type}.
Implicit Types (d : dict V) (k : string) (v : V).

Lemma dict_get_set_same k v d : dict_get k (dict_set k v d) = Some v.
Proof.
  induction d as [|[k' v'] d IH]; simpl.
  - now rewrite String.eqb_refl.
  - destruct (String.eqb k' k) eqn:E; simpl.
    + now rewrite String.eqb_refl.
    + now rewrite E.
Qed.

Lemma dict_get_set_other k k' v d :
  k <> k' -> dict_get k' (dict_set k v d) = dict_get k' d.
Proof.
  intros Hne. induction d as [|[k0 v0] d IH]; simpl.
  - apply String.eqb_neq in Hne. now rewrite Hne.
  - destruct (String.eqb k0 k) eqn:E; simpl.
    + apply String.eqb_eq in E. subst k0.
      apply String.eqb_neq in Hne. now rewrite Hne.
    + destruct (String.eqb k0 k'); auto.
Qed.

Lemma dict_set_set k v v' d :
  dict_set k v' (dict_set k v d) = dict_set k v' d.
Proof.
  induction d as [|[k0 v0] d IH]; simpl.
  - now rewrite String.eqb_refl.
  - destruct (String.eqb k0 k) eqn:E; simpl.
    + now rewrite String.eqb_refl.
    + now rewrite E, IH.
Qed.

Lemma dict_get_In k d : 
  In k (dict_keys d) <-> dict_get k d <> None.
Proof.
  induction d as [|[k0 v0] d IH]; simpl.
  - split; [tauto | congruence].
  - destruct (String.eqb k0 k) eqn:E.
    + apply String.eqb_eq in E. split; [congruence | auto].
    + apply String.eqb_neq in E. rewrite <- IH. tauto.
Qed.

Lemma dict_mem_In k d : dict_mem k d = true <-> In k (dict_keys d).
Proof.
  rewrite dict_get_In. unfold dict_mem.
  destruct (dict_get k d); split; congruence.
Qed.

Lemma dict_mem_false k d : dict_mem k d = false <-> dict_get k d = None.
Proof.
  unfold dict_mem. destruct (dict_get k d); split; congruence.
Qed.

Lemma dict_keys_set_present k v d :
  In k (dict_keys d) -> dict_keys (dict_set k v d) = dict_keys d.
Proof.
  induction d as [|[k0 v0] d IH]; simpl; [tauto|].
  intros Hin. destruct (String.eqb k0 k) eqn:E; simpl.
  - apply String.eqb_eq in E. now subst.
  - apply String.eqb_neq in E. f_equal. apply IH.
    destruct Hin; [contradiction | assumption].
Qed.

Lemma dict_set_absent k v d :
  ~ In k (dict_keys d) -> dict_set k v d = d ++ [(k, v)].
Proof.
  induction d as [|[k0 v0] d IH]; simpl; intros Hnin; [reflexivity|].
  destruct (String.eqb k0 k) eqn:E.
  - apply String.eqb_eq in E. tauto.
  - f_equal. apply IH. tauto.
Qed.

Lemma dict_ok_set k v d : dict_ok d -> dict_ok (dict_set k v d).
Proof.
  unfold dict_ok. intros Hok.
  destruct (in_dec string_dec k (dict_keys d)) as [Hin|Hnin].
  - now rewrite dict_keys_set_present.
  - rewrite dict_set_absent by assumption.
    unfold dict_keys in *. rewrite map_app. simpl.
    apply NoDup_app; [assumption | repeat constructor; simpl; tauto |].
    intros a Ha [<-|[]]. contradiction.
Qed.

Lemma dict_get_remove_same k d : dict_get k (dict_remove k d) = None.
Proof.
  induction d as [|[k0 v0] d IH]; simpl; [reflexivity|].
  destruct (String.eqb k0 k) eqn:E; simpl; [assumption|].
  now rewrite E.
Qed.

Lemma dict_get_remove_other k k' d :
  k <> k' -> dict_get k' (dict_remove k d) = dict_get k' d.
Proof.
  intros Hne. induction d as [|[k0 v0] d IH]; simpl; [reflexivity|].
  destruct (String.eqb k0 k) eqn:E; simpl.
  - apply String.eqb_eq in E. subst k0.
    apply String.eqb_neq in Hne. now rewrite Hne.
  - destruct (String.eqb k0 k'); auto.
Qed.

Lemma dict_remove_absent k d : dict_get k d = None -> dict_remove k d = d.
Proof.
  induction d as [|[k0 v0] d IH]; simpl; [reflexivity|].
  destruct (String.eqb k0 k) eqn:E; simpl; [discriminate|].
  intros H. now rewrite IH.
Qed.

Lemma dict_keys_remove k d :
  dict_keys (dict_remove k d) =
  filter (fun k' => negb (String.eqb k' k)) (dict_keys d).
Proof.
  induction d as [|[k0 v0] d IH]; simpl; [reflexivity|].
  destruct (String.eqb k0 k); simpl; now rewrite IH.
Qed.

Lemma dict_ok_remove k d : dict_ok d -> dict_ok (dict_remove k d).
Proof.
  unfold dict_ok. rewrite dict_keys_remove. apply NoDup_filter.
Qed.

Lemma dict_get_some_remove k k' d v :
  dict_get k' (dict_remove k d) = Some v -> dict_get k' d = Some v.
Proof.
  destruct (string_dec k k') as [->|Hne].
  - now rewrite dict_get_remove_same.
  - now rewrite dict_get_remove_other.
Qed.

End DictFacts.

(** ** The heap of [Popen] objects *)

Lemma length_list_update {A} n (f : A -> A) l :
  length (list_update n f l) = length l.
Proof.
  revert n. induction l as [|x l IH]; intros [|n]; simpl; auto.
Qed.

Lemma nth_list_update_same {A} n (f : A -> A) l d :
  n < length l -> nth n (list_update n f l) d = f (nth n l d).
Proof.
  revert n. induction l as [|x l IH]; intros [|n]; simpl; try lia; auto.
  intros H. apply IH. lia.
Qed.

Lemma nth_list_update_other {A} n m (f : A -> A) l d :
  n <> m -> nth m (list_update n f l) d = nth m l d.
Proof.
  revert n m. induction l as [|x l IH]; intros [|n] [|m]; simpl; auto;
    try congruence.
Qed.

(** A handle whose child still runs is a handle of the heap. *)
Lemma running_in_heap h w :
  poll_at (now w) (deref h w) = None -> h < length (heap w).
Proof.
  unfold deref. intros H.
  destruct (Nat.lt_ge_cases h (length (heap w))) as [Hlt|Hge]; auto.
  rewrite nth_overflow in H by assumption. discriminate.
Qed.

Lemma deliver_running s t p :
  poll_at t p = None -> signals (deliver s t p) = signals p ++ [s].
Proof.
  unfold deliver. intros ->. destruct s; simpl; auto.
  destruct (on_term p) as [d|]; simpl; auto.
  destruct (exit_at p) as [[e rc]|]; simpl; auto.
  destruct (e <=? t + d); simpl; auto.
Qed.

Lemma deliver_kill t p :
  poll_at t p = None -> exit_at (deliver SIGKILL t p) = Some (t, (-9)%Z).
Proof. unfold deliver. now intros ->. Qed.

(** A child that ignores SIGTERM keeps its own schedule. *)
Lemma deliver_term_ignored t p :
  on_term p = None -> exit_at (deliver SIGTERM t p) = exit_at p.
Proof.
  unfold deliver. intros H. destruct (poll_at t p); auto. now rewrite H.
Qed.

(** ** What [stop] does *)

Lemma stop_untracked id force w :
  dict_get id (processes w) = None ->
  ParallelRunner.stop id force w = Ret false w.
Proof.
  intros H. unfold ParallelRunner.stop, ParallelRunner.lookup. unfold_m.
  now rewrite H.
Qed.

Lemma stop_exited id force w info :
  dict_get id (processes w) = Some info ->
  poll_at (now w) (deref (process info) w) <> None ->
  ParallelRunner.stop id force w =
  Ret true (set_processes (dict_remove id (processes w)) w).
Proof.
  intros Hget Hpoll.
  unfold ParallelRunner.stop, ParallelRunner.lookup, Popen_poll,
    ParallelRunner.delitem, dict_del, dict_mem.
  unfold_m. rewrite Hget.
  destruct (poll_at (now w) (deref (process info) w)); [|congruence].
  now rewrite Hget.
Qed.

Lemma stop_running id (force : bool) w info :
  dict_get id (processes w) = Some info ->
  poll_at (now w) (deref (process info) w) = None ->
  let s := if force then SIGKILL else SIGTERM in
  ParallelRunner.stop id force w =
  Ret true
    (mkWorld (fs w) (executable w)
       (grace_end (now w) (deliver s (now w) (deref (process info) w)))
       (list_update (process info) (deliver s (now w)) (heap w))
       (threads w) (dict_remove id (processes w)) (trace w)).
Proof.
  intros Hget Hpoll s.
  pose proof (running_in_heap _ _ Hpoll) as Hin.
  unfold ParallelRunner.stop, ParallelRunner.lookup, Popen_poll.
  unfold_m. rewrite Hget, Hpoll.
  destruct force; subst s; simpl;
    unfold Popen_kill, Popen_terminate, Popen_send, Popen_wait,
      ParallelRunner.delitem, dict_del, dict_mem; unfold_m; simpl;
    unfold deref at 1; simpl; rewrite nth_list_update_same by assumption;
    fold (deref (process info) w); unfold grace_end.
  - rewrite deliver_kill by assumption.
    replace (now w <=? now w + 5) with true by (symmetry; apply Nat.leb_le; lia).
    simpl. now rewrite Hget.
  - destruct (exit_at (deliver SIGTERM (now w) (deref (process info) w)))
      as [[e rc]|]; simpl.
    + destruct (e <=? now w + 5); simpl; now rewrite Hget.
    + now rewrite Hget.
Qed.

(** [stop] always comes back: it answers whether the identifier was
    tracked, the record is gone, at most 5 seconds have passed, and only the
    child found under the identifier can have been signalled. *)
Lemma stop_returns id (force : bool) w :
  exists w',
    ParallelRunner.stop id force w = Ret (dict_mem id (processes w)) w' /\
    processes w' = dict_remove id (processes w) /\
    fs w' = fs w /\ executable w' = executable w /\
    threads w' = threads w /\ trace w' = trace w /\
    length (heap w') = length (heap w) /\
    now w <= now w' <= now w + 5 /\
    forall h,
      (forall i, dict_get id (processes w) = Some i -> process i <> h) ->
      deref h w' = deref h w.
Proof.
  unfold dict_mem.
  destruct (dict_get id (processes w)) as [info|] eqn:Hget.
  - destruct (poll_at (now w) (deref (process info) w)) eqn:Hpoll.
    + eexists. split.
      * apply (stop_exited id force w info); [assumption | congruence].
      * simpl. repeat split; auto; lia.
    + eexists. split.
      * apply (stop_running id force w info); assumption.
      * simpl. rewrite length_list_update. repeat split; auto.
        -- unfold grace_end.
           destruct (exit_at _) as [[e rc]|]; [|lia].
           destruct (e <=? now w + 5); lia.
        -- unfold grace_end.
           destruct (exit_at _) as [[e rc]|]; [|lia].
           destruct (e <=? now w + 5) eqn:E; [|lia].
           apply Nat.leb_le in E. lia.
        -- intros h Hh. unfold deref. simpl.
           apply nth_list_update_other. now apply Hh.
  - exists w. split.
    + now apply stop_untracked.
    + rewrite dict_remove_absent by assumption.
      repeat split; auto; lia.
Qed.

(** ** What [run] does *)

Lemma deref_new_popen p w : deref (length (heap w)) (set_heap (heap w ++ [p]) w) = p.
Proof. unfold deref. simpl. apply nth_middle. Qed.

Lemma run_missing script args show cb wt tag child w :
  existsb (String.eqb script) (fs w) = false ->
  ParallelRunner.run script args show cb wt tag child w =
  Raise (FileNotFoundError script) w.
Proof.
  intros H. unfold ParallelRunner.run, os_path_exists. unfold_m.
  now rewrite H.
Qed.

Lemma run_started script args show cb tag child w :
  existsb (String.eqb script) (fs w) = true ->
  let id := chosen_id tag child in
  let h := length (heap w) in
  ParallelRunner.run script args show cb false tag child w =
  Ret id
    (mkWorld (fs w) (executable w) (now w)
       (heap w ++ [spawned (now w) (command (executable w) script args) child])
       (threads w ++ [mkThread h id show cb false])
       (dict_set id (mkInfo h (Some (length (threads w))) true) (processes w))
       (trace w)).
Proof.
  intros H id h.
  unfold ParallelRunner.run, os_path_exists, Popen_new, Thread_start,
    ParallelRunner.getitem.
  unfold_m. rewrite H. simpl.
  rewrite deref_new_popen. simpl. fold (chosen_id tag child). fold id.
  rewrite dict_get_set_same. simpl.
  rewrite dict_set_set. reflexivity.
Qed.

Lemma run_waited script args show cb tag child w n rc :
  existsb (String.eqb script) (fs w) = true ->
  c_life child = Some (n, rc) ->
  let id := chosen_id tag child in
  let h := length (heap w) in
  let tid := length (threads w) in
  let p := spawned (now w) (command (executable w) script args) child in
  ParallelRunner.run script args show cb true tag child w =
  Ret id
    (mkWorld (fs w) (executable w) (now w + n)
       (heap w ++ [p])
       (threads w ++ [mkThread h id show cb true])
       (dict_set id (mkInfo h (Some tid) false) (processes w))
       (trace w ++
        fst (read_output_loop show cb id
               (map (fun l => (l, Some rc)) (c_stdout child)
                ++ [("", Some rc)])))).
Proof.
  intros H Hlife id h tid p.
  unfold ParallelRunner.run, os_path_exists, Popen_new, Thread_start,
    ParallelRunner.getitem.
  unfold_m. rewrite H. simpl.
  rewrite deref_new_popen. simpl. fold (chosen_id tag child). fold id.
  rewrite dict_get_set_same. simpl.
  rewrite dict_set_set.
  unfold Popen_wait, Thread_join, deref. simpl.
  rewrite nth_middle. simpl. rewrite Hlife. simpl.
  rewrite nth_error_app2, Nat.sub_diag by lia. simpl.
  rewrite nth_middle. simpl. rewrite ?Hlife. simpl.
  unfold mark_not_running. rewrite dict_get_set_same, dict_set_set.
  replace (Nat.max (Nat.max (now w) (now w + n)) (now w + n))
    with (now w + n) by lia.
  assert (Hth : forall ts t,
             list_update (length ts) set_finished (ts ++ [t]) =
             ts ++ [set_finished t]).
  { induction ts as [|t0 ts IH]; intros t; simpl; [reflexivity|].
    now rewrite IH. }
  rewrite Hth. subst p. unfold spawned, command. rewrite Hlife.
  reflexivity.
Qed.

Lemma run_blocked script args show cb tag child w :
  existsb (String.eqb script) (fs w) = true ->
  c_life child = None ->
  ParallelRunner.run script args show cb true tag child w = Hang.
Proof.
  intros H Hlife.
  unfold ParallelRunner.run, os_path_exists, Popen_new, Thread_start,
    ParallelRunner.getitem.
  unfold_m. rewrite H. simpl.
  rewrite deref_new_popen. simpl.
  rewrite dict_get_set_same. simpl.
  unfold Popen_wait, deref. simpl.
  rewrite nth_middle. simpl. now rewrite Hlife.
Qed.

(** [run] comes back with the chosen identifier as soon as the script
    exists and, when it is asked to wait, the child exits by itself. *)
Lemma run_returns script args show cb (wt : bool) tag child w :
  existsb (String.eqb script) (fs w) = true ->
  (wt = true -> c_life child <> None) ->
  exists w',
    ParallelRunner.run script args show cb wt tag child w =
      Ret (chosen_id tag child) w' /\
    heap w' =
      heap w ++ [spawned (now w) (command (executable w) script args) child] /\
    processes w' =
      dict_set (chosen_id tag child)
        (mkInfo (length (heap w)) (Some (length (threads w))) (negb wt))
        (processes w) /\
    fs w' = fs w /\ executable w' = executable w /\ now w <= now w'.
Proof.
  intros H Hwt. destruct wt.
  - destruct (c_life child) as [[n rc]|] eqn:Hlife; [|now elim Hwt].
    eexists. split; [eapply run_waited; eassumption|].
    simpl. repeat split; auto. lia.
  - eexists. split; [now apply run_started|].
    simpl. repeat split; auto.
Qed.

(* ================================================================== *)
(** ** Stopping a process *)

(** C1 (as amended).  [stop(process_id, force=False)] on a tracked process
    that has not exited sends it SIGTERM and nothing else, comes back with
    [True] within 5 seconds and has removed the record.  The kill in the
    timeout handler is guarded by [if force], so there is no escalation: a
    child that reacts to SIGTERM within 5 seconds has exited when [stop]
    returns, and a child that ignores it (and does not end by itself in the
    meantime) is still running then, 5 seconds later. *)
Theorem stop_graceful_no_escalation id w info :
  dict_get id (processes w) = Some info ->
  poll_at (now w) (deref (process info) w) = None ->
  exists w',
    ParallelRunner.stop id false w = Ret true w' /\
    dict_get id (processes w') = None /\
    now w <= now w' <= now w + 5 /\
    signals (deref (process info) w') =
      signals (deref (process info) w) ++ [SIGTERM] /\
    (forall d, on_term (deref (process info) w) = Some d -> d <= 5 ->
       poll_at (now w') (deref (process info) w') <> None) /\
    (on_term (deref (process info) w) = None ->
     poll_at (now w + 5) (deref (process info) w) = None ->
       now w' = now w + 5 /\
       poll_at (now w') (deref (process info) w') = None).
Proof.
  intros Hget Hpoll.
  pose proof (running_in_heap _ _ Hpoll) as Hin.
  pose proof (stop_running id false w info Hget Hpoll) as Hstop.
  simpl in Hstop.
  set (p := deref (process info) w) in *.
  eexists. split; [exact Hstop|]. simpl.
  assert (Hd : forall t x d0, deref (process info)
             (mkWorld (fs w) (executable w) t
                (list_update (process info) (deliver SIGTERM (now w)) (heap w))
                x d0 (trace w)) = deliver SIGTERM (now w) p).
  { intros. unfold deref. simpl. now rewrite nth_list_update_same. }
  rewrite Hd.
  split; [apply dict_get_remove_same|].
  split.
  { unfold grace_end. destruct (exit_at _) as [[e rc]|]; [|lia].
    destruct (e <=? now w + 5) eqn:E; [|lia]. apply Nat.leb_le in E. lia. }
  split; [now apply deliver_running|].
  split.
  - intros d Hterm Hle.
    unfold grace_end, poll_at, deliver. rewrite Hpoll, Hterm.
    unfold poll_at in Hpoll.
    destruct (exit_at p) as [[e rc]|] eqn:He; simpl.
    + destruct (e <=? now w) eqn:E0; [discriminate|].
      apply Nat.leb_gt in E0.
      destruct (e <=? now w + d) eqn:E1; simpl; rewrite ?He.
      * apply Nat.leb_le in E1.
        replace (e <=? now w + 5) with true
          by (symmetry; apply Nat.leb_le; lia).
        replace (e <=? Nat.max (now w) e) with true
          by (symmetry; apply Nat.leb_le; lia).
        discriminate.
      * replace (now w + d <=? now w + 5) with true
          by (symmetry; apply Nat.leb_le; lia).
        replace (now w + d <=? Nat.max (now w) (now w + d)) with true
          by (symmetry; apply Nat.leb_le; lia).
        discriminate.
    + replace (now w + d <=? now w + 5) with true
        by (symmetry; apply Nat.leb_le; lia).
      replace (now w + d <=? Nat.max (now w) (now w + d)) with true
        by (symmetry; apply Nat.leb_le; lia).
      discriminate.
  - intros Hterm Hlater.
    unfold grace_end, poll_at. rewrite (deliver_term_ignored _ _ Hterm).
    unfold poll_at in Hlater.
    destruct (exit_at p) as [[e rc]|]; [|auto].
    destruct (e <=? now w + 5) eqn:E; [discriminate|].
    now rewrite E.
Qed.

Lemma stop_graceful_no_escalation_witness :
  dict_get "proc_4242" (processes stubborn_world)
    = Some (mkInfo 0 (Some 0) true) /\
  poll_at (now stubborn_world) (deref 0 stubborn_world) = None /\
  exists w',
    ParallelRunner.stop "proc_4242" false stubborn_world = Ret true w' /\
    dict_get "proc_4242" (processes w') = None /\
    now stubborn_world <= now w' <= now stubborn_world + 5 /\
    signals (deref 0 w') = signals (deref 0 stubborn_world) ++ [SIGTERM] /\
    (forall d, on_term (deref 0 stubborn_world) = Some d -> d <= 5 ->
       poll_at (now w') (deref 0 w') <> None) /\
    (on_term (deref 0 stubborn_world) = None ->
     poll_at (now stubborn_world + 5) (deref 0 stubborn_world) = None ->
       now w' = now stubborn_world + 5 /\
       poll_at (now w') (deref 0 w') = None).
Proof.
  split; [reflexivity|]. split; [reflexivity|].
  apply (stop_graceful_no_escalation "proc_4242" stubborn_world
           (mkInfo 0 (Some 0) true)); reflexivity.
Defined.

(** C1 (as stated) fails: the child of [stubborn_world] is tracked and
    running; [stop] without force returns [True] after the 5 seconds and
    has removed the record, but no SIGKILL was ever sent and the child is
    still running. *)
Lemma stop_graceful_leaves_stubborn_child_running :
  dict_get "proc_4242" (processes stubborn_world)
    = Some (mkInfo 0 (Some 0) true) /\
  poll_at (now stubborn_world) (deref 0 stubborn_world) = None /\
  ParallelRunner.stop "proc_4242" false stubborn_world
    = Ret true stubborn_stopped /\
  now stubborn_stopped = now stubborn_world + 5 /\
  dict_mem "proc_4242" (processes stubborn_stopped) = false /\
  signals (deref 0 stubborn_stopped) = [SIGTERM] /\
  poll_at (now stubborn_stopped) (deref 0 stubborn_stopped) = None.
Proof. repeat split. Qed.

(** C4.  For an identifier that the registry does not hold, [stop] returns
    [False], [is_running] returns [False] and [wait] returns [None]; none
    of them raises, and the world, the registry with it, is as before. *)
Theorem untracked_identifier_is_silent id force timeout w :
  dict_mem id (processes w) = false ->
  ParallelRunner.stop id force w = Ret false w /\
  ParallelRunner.is_running id w = Ret false w /\
  ParallelRunner.wait id timeout w = Ret None w.
Proof.
  intros H. apply dict_mem_false in H. split; [now apply stop_untracked|].
  unfold ParallelRunner.is_running, ParallelRunner.wait,
    ParallelRunner.lookup.
  unfold_m. now rewrite H.
Qed.

Lemma untracked_identifier_is_silent_witness :
  dict_mem "ghost" (processes stubborn_world) = false /\
  ParallelRunner.stop "ghost" false stubborn_world
    = Ret false stubborn_world /\
  ParallelRunner.is_running "ghost" stubborn_world
    = Ret false stubborn_world /\
  ParallelRunner.wait "ghost" (Some 3) stubborn_world
    = Ret None stubborn_world.
Proof.
  split; [reflexivity|].
  apply (untracked_identifier_is_silent "ghost" false (Some 3)
           stubborn_world).
  reflexivity.
Defined.

(* ================================================================== *)
(** ** Launching *)

(** C3.  [run] with a script path that does not exist raises
    [FileNotFoundError] and leaves the world as it was: no [Popen] object
    was created and the registry has no new record. *)
Theorem run_missing_script script args show cb wt tag child w :
  existsb (String.eqb script) (fs w) = false ->
  ParallelRunner.run script args show cb wt tag child w
    = Raise (FileNotFoundError script) w.
Proof. apply run_missing. Qed.

Lemma run_missing_script_witness :
  existsb (String.eqb "nowhere.py") (fs stubborn_world) = false /\
  ParallelRunner.run "nowhere.py" None true None true (Some "x") brief
      stubborn_world
    = Raise (FileNotFoundError "nowhere.py") stubborn_world.
Proof.
  split; [reflexivity|].
  apply (run_missing_script "nowhere.py" None true None true (Some "x")
           brief stubborn_world).
  reflexivity.
Defined.

(** C10.  [run] with [tag=""] behaves as [run] with no tag: the empty
    string is falsy in [tag or ...], so the identifier returned is
    [proc_<pid>], which is not the empty string, and the record of the new
    process is stored under it. *)
Theorem run_empty_tag script args show cb (wt : bool) child w :
  existsb (String.eqb script) (fs w) = true ->
  (wt = true -> c_life child <> None) ->
  let id := String.append "proc_" (str_int (c_pid child)) in
  exists w',
    ParallelRunner.run script args show cb wt (Some "") child w = Ret id w' /\
    ParallelRunner.run script args show cb wt None child w = Ret id w' /\
    id <> "" /\
    dict_get id (processes w') =
      Some (mkInfo (length (heap w)) (Some (length (threads w))) (negb wt)) /\
    pid (deref (length (heap w)) w') = c_pid child /\
    dict_mem "" (processes w') = dict_mem "" (processes w).
Proof.
  intros H Hwt id.
  destruct (run_returns script args show cb wt (Some "") child w H Hwt)
    as (w' & Hrun & Hheap & Hprocs & _).
  change (chosen_id (Some "") child) with id in *.
  exists w'. split; [exact Hrun|]. split; [exact Hrun|].
  split; [discriminate|].
  rewrite Hprocs. split; [apply dict_get_set_same|].
  split.
  - unfold deref. rewrite Hheap, nth_middle. reflexivity.
  - unfold dict_mem. rewrite dict_get_set_other; [reflexivity|discriminate].
Qed.

Lemma run_empty_tag_witness :
  existsb (String.eqb "limiter.py") (fs sample_world) = true /\
  exists w',
    ParallelRunner.run "limiter.py" None true None true (Some "") brief
      sample_world = Ret "proc_4244" w' /\
    ParallelRunner.run "limiter.py" None true None true None brief
      sample_world = Ret "proc_4244" w' /\
    "proc_4244" <> "" /\
    dict_get "proc_4244" (processes w') = Some (mkInfo 0 (Some 0) false) /\
    pid (deref 0 w') = 4244%Z /\
    dict_mem "" (processes w') = false.
Proof.
  split; [reflexivity|].
  apply (run_empty_tag "limiter.py" None true None true brief sample_world).
  - reflexivity.
  - discriminate.
Defined.

(* ================================================================== *)
(** ** [kill] and [kill_all] *)

(** C9.  [kill(pid)] is [stop(pid, force=True)] and [kill_all()] is
    [stop_all(force=True)]: the same outcome in every world, return value
    and final world alike. *)
Theorem kill_is_forced_stop id w :
  kill id w = stop id true w /\
  kill_all w = stop_all true w.
Proof. split; reflexivity. Qed.

(* ================================================================== *)
(** ** The overlay window *)

Lemma str_int_inj z z' : str_int z = str_int z' -> z = z'.
Proof.
  unfold str_int. intros H.
  assert (Hn : forall n, Z.to_int n <> Pos Nil /\ Z.to_int n <> Neg Nil).
  { intros [|q|q]; simpl; split; try discriminate;
      intros [= E]; now apply DecimalPos.Unsigned.to_uint_nonnil in E. }
  apply DecimalZ.to_int_inj.
  assert (E : Some (Z.to_int z) = Some (Z.to_int z')).
  { rewrite <- (NilZero.isi (Z.to_int z)) by apply Hn.
    rewrite <- (NilZero.isi (Z.to_int z')) by apply Hn.
    now rewrite H. }
  now injection E.
Qed.

(** A decimal rendering contains neither of the separators of a geometry
    string. *)
Lemma str_int_digits c z :
  c = "x"%char \/ c = "+"%char -> mentions c (str_int z) = false.
Proof.
  intros Hc.
  assert (Hu : forall d, mentions c (NilEmpty.string_of_uint d) = false).
  { induction d; simpl; auto;
      destruct Hc as [->| ->]; simpl; assumption. }
  assert (Hz : forall d, mentions c (NilZero.string_of_uint d) = false).
  { intros d. destruct d; try apply Hu.
    destruct Hc as [->| ->]; reflexivity. }
  unfold str_int. destruct (Z.to_int z) as [d|d]; simpl.
  - apply Hz.
  - rewrite Hz. destruct Hc as [->| ->]; reflexivity.
Qed.

(** Two strings that agree up to and after the first occurrence of a
    separator agree on both parts. *)
Lemma split_at_separator c a a' r r' :
  mentions c a = false -> mentions c a' = false ->
  String.append a (String c r) = String.append a' (String c r') ->
  a = a' /\ r = r'.
Proof.
  revert a'. induction a as [|x a IH]; intros [|x' a']; simpl.
  - intros _ _ [= ->]. auto.
  - intros _ H [= <- _]. rewrite Ascii.eqb_refl in H. discriminate.
  - intros H _ [= -> _]. rewrite Ascii.eqb_refl in H. discriminate.
  - intros H H' [= -> E].
    apply orb_false_iff in H. apply orb_false_iff in H'.
    destruct (IH a' (proj2 H) (proj2 H') E) as [-> ->]. auto.
Qed.

Lemma format_geometry_inj g g' :
  format_geometry g = format_geometry g' -> g = g'.
Proof.
  destruct g as [w h x y], g' as [w' h' x' y'].
  unfold format_geometry. simpl. intros E.
  apply split_at_separator in E; try (apply str_int_digits; now left).
  destruct E as [Ew E].
  apply split_at_separator in E; try (apply str_int_digits; now right).
  destruct E as [Eh E].
  apply split_at_separator in E; try (apply str_int_digits; now right).
  destruct E as [Ex Ey].
  apply str_int_inj in Ew, Eh, Ex, Ey. now subst.
Qed.

(** C7.  For an image of [W] by [H] pixels on a screen [S] pixels wide, the
    geometry given to the window has width [W], height [H], x-origin
    [S - W - 20] and y-origin [0]; the string passed to [root.geometry] is
    these four numbers in the form [WxH+X+0], and it is the rendering of no
    other geometry. *)
Theorem overlay_geometry_spec (W H S : Z) :
  g_width (overlay_geometry W H S) = W /\
  g_height (overlay_geometry W H S) = H /\
  g_x (overlay_geometry W H S) = (S - W - 20)%Z /\
  g_y (overlay_geometry W H S) = 0%Z /\
  geometry_argument W H S =
    String.append (str_int W)
      (String.append "x"
        (String.append (str_int H)
          (String.append "+"
            (String.append (str_int (S - W - 20)) "+0")))) /\
  forall g, format_geometry g = geometry_argument W H S ->
            g = mkGeometry W H (S - W - 20) 0.
Proof.
  repeat split. intros g E. now apply format_geometry_inj in E.
Qed.

Example overlay_geometry_full_hd :
  geometry_argument 200 300 1920 = "200x300+1700+0".
Proof. reflexivity. Qed.

(* ================================================================== *)
(** ** The drain task *)

Lemma on_line_dispatch show cb id line :
  on_line show cb id line = dispatch_spec show cb id (rstrip_nl line).
Proof.
  unfold on_line, dispatch_spec. destruct show, cb; reflexivity.
Qed.

Lemma rstrip_nl_plain body :
  no_newline body = true -> rstrip_nl body = body.
Proof.
  induction body as [|c body IH]; simpl; [reflexivity|].
  intros H. apply andb_true_iff in H. destruct H as [Hc Hb].
  rewrite (IH Hb). destruct body; [|reflexivity].
  apply negb_true_iff in Hc. now rewrite Hc.
Qed.

Lemma rstrip_nl_line body :
  no_newline body = true -> rstrip_nl (String.append body nl) = body.
Proof.
  induction body as [|c body IH]; simpl; [reflexivity|].
  intros H. apply andb_true_iff in H. destruct H as [Hc Hb].
  rewrite (IH Hb). destruct body; [|reflexivity].
  apply negb_true_iff in Hc. now rewrite Hc.
Qed.

Lemma read_output_loop_app show cb id pre post :
  forallb keeps_reading pre = true ->
  read_output_loop show cb id (pre ++ post) =
  (fst (read_output_loop show cb id pre)
     ++ fst (read_output_loop show cb id post),
   snd (read_output_loop show cb id post)).
Proof.
  induction pre as [|[line polled] pre IH]; simpl.
  - intros _. now destruct (read_output_loop show cb id post).
  - intros H. apply andb_true_iff in H. destruct H as [Hk Hpre].
    unfold keeps_reading in Hk. simpl in Hk.
    apply negb_true_iff in Hk. rewrite Hk.
    rewrite (IH Hpre).
    destruct (read_output_loop show cb id pre) as [e1 b1].
    simpl. now rewrite app_assoc.
Qed.

(** C2.  Whatever the drain task has read before without leaving its loop,
    a line that [readline] returns ([body] followed by a line feed, or a
    last [body] that is not empty and has none) is dispatched with the line
    feed stripped, by the combination of [show_output] and [callback]: both
    set, the callback alone is called; [show_output] alone, the line is
    printed as [[<process_id>]: <body>]; the callback alone, it is called;
    neither, nothing happens.  The reads that follow are handled after
    it. *)
Theorem read_output_dispatches_each_line
    show cb id pre body line polled post :
  forallb keeps_reading pre = true ->
  no_newline body = true ->
  line = String.append body nl \/ (line = body /\ body <> "") ->
  fst (read_output_loop show cb id (pre ++ (line, polled) :: post)) =
    fst (read_output_loop show cb id pre)
    ++ dispatch_spec show cb id body
    ++ fst (read_output_loop show cb id post).
Proof.
  intros Hpre Hbody Hline.
  rewrite read_output_loop_app by assumption. simpl. f_equal.
  assert (Htruthy : str_truthy line = true).
  { destruct Hline as [->|[-> Hne]].
    - now destruct body.
    - destruct body; [congruence | reflexivity]. }
  assert (Hstrip : rstrip_nl line = body).
  { destruct Hline as [->|[-> _]].
    - now apply rstrip_nl_line.
    - now apply rstrip_nl_plain. }
  rewrite Htruthy. simpl.
  destruct (read_output_loop show cb id post) as [later broke]. simpl.
  now rewrite on_line_dispatch, Hstrip.
Qed.

Lemma read_output_dispatches_each_line_witness :
  forallb keeps_reading [(String.append "A" nl, None); ("", None)] = true /\
  no_newline "B" = true /\
  fst (read_output_loop true None "proc_7"
         ([(String.append "A" nl, None); ("", None)]
          ++ (String.append "B" nl, None) :: [("", Some 0%Z)])) =
    fst (read_output_loop true None "proc_7"
           [(String.append "A" nl, None); ("", None)])
    ++ [Print "[proc_7]: B"]
    ++ fst (read_output_loop true None "proc_7" [("", Some 0%Z)]).
Proof.
  split; [reflexivity|]. split; [reflexivity|].
  apply (read_output_dispatches_each_line true None "proc_7"
           [(String.append "A" nl, None); ("", None)] "B"
           (String.append "B" nl) None [("", Some 0%Z)]).
  - reflexivity.
  - reflexivity.
  - left. reflexivity.
Defined.

(** A whole stream: the lines of a child, then the end of the stream with
    the child gone.  The loop dispatches the lines in order and leaves. *)
Lemma read_output_loop_lines show cb id bodies rc :
  Forall (fun b => no_newline b = true) bodies ->
  read_output_loop show cb id
    (map (fun l => (l, Some rc)) (map (fun b => String.append b nl) bodies)
     ++ [("", Some rc)])
  = (flat_map (dispatch_spec show cb id) bodies, true).
Proof.
  induction 1 as [|b bodies Hb _ IH]; simpl; [reflexivity|].
  rewrite IH.
  assert (Ht : str_truthy (String.append b nl) = true) by now destruct b.
  rewrite Ht. simpl.
  now rewrite on_line_dispatch, rstrip_nl_line.
Qed.

(** X11.  [run(..., wait=True)] on a child that prints [bodies] line by
    line and exits: when [run] returns, the lines have been dispatched in
    the order in which the child wrote them. *)
Lemma run_waited_trace script args show cb tag child w n rc bodies :
  existsb (String.eqb script) (fs w) = true ->
  c_life child = Some (n, rc) ->
  c_stdout child = map (fun b => String.append b nl) bodies ->
  Forall (fun b => no_newline b = true) bodies ->
  exists w',
    ParallelRunner.run script args show cb true tag child w
      = Ret (chosen_id tag child) w' /\
    trace w' =
      trace w ++ flat_map (dispatch_spec show cb (chosen_id tag child)) bodies.
Proof.
  intros Hex Hlife Hout Hb.
  eexists. split; [now apply (run_waited _ _ _ _ _ _ _ n rc)|].
  simpl. rewrite Hout, read_output_loop_lines by assumption. reflexivity.
Qed.

(* ================================================================== *)
(** ** Invariants of the registry *)

Lemma steady_refl w : steady w w.
Proof. repeat split; auto. intros k i H. eauto. Qed.

Lemma steady_trans w1 w2 w3 : steady w1 w2 -> steady w2 w3 -> steady w1 w3.
Proof.
  intros (L1 & O1 & G1) (L2 & O2 & G2). repeat split.
  - congruence.
  - auto.
  - intros k i3 H3. destruct (G2 k i3 H3) as (i2 & H2 & E2).
    destruct (G1 k i2 H2) as (i1 & H1 & E1). exists i1. split; congruence.
Qed.

Lemma steady_same w w' :
  heap w' = heap w -> processes w' = processes w -> steady w w'.
Proof.
  intros Hh Hp. unfold steady. rewrite Hh, Hp. repeat split; auto.
  intros k i H. eauto.
Qed.

Lemma steady_ok w w' : steady w w' -> world_ok w -> world_ok w'.
Proof.
  intros (L & O & G) (Hok & Hin). split; [auto|].
  intros k i' H. destruct (G k i' H) as (i & Hi & E).
  rewrite L, E. eauto.
Qed.

Lemma steady_keys w w' k :
  steady w w' ->
  In k (dict_keys (processes w')) -> In k (dict_keys (processes w)).
Proof.
  intros (_ & _ & G). rewrite !dict_get_In.
  destruct (dict_get k (processes w')) as [i'|] eqn:E; [|congruence].
  intros _. destruct (G k i' E) as (i & Hi & _). congruence.
Qed.

Lemma stop_steady id force w w' b :
  ParallelRunner.stop id force w = Ret b w' -> steady w w'.
Proof.
  destruct (stop_returns id force w)
    as (w1 & Hstop & Hp & _ & _ & _ & _ & Hlen & _).
  rewrite Hstop. intros [= _ <-]. unfold steady. rewrite Hp.
  repeat split; auto.
  - apply dict_ok_remove.
  - intros k i' H. apply dict_get_some_remove in H. eauto.
Qed.

(** The loop of [stop_all] always runs to its end. *)
Lemma stop_each_returns ids force w :
  exists w', ParallelRunner.stop_each ids force w = Ret tt w' /\ steady w w'.
Proof.
  revert w. induction ids as [|id ids IH]; intros w; simpl.
  - exists w. split; [reflexivity | apply steady_refl].
  - destruct (stop_returns id force w) as (w1 & Hstop & _).
    destruct (IH w1) as (w' & Hrest & Hst).
    exists w'. unfold bind. rewrite Hstop. split; [assumption|].
    eapply steady_trans; [|eassumption].
    eapply stop_steady; eassumption.
Qed.

Lemma Popen_wait_frame h timeout w :
  match Popen_wait h timeout w with
  | Ret _ w' => heap w' = heap w /\ processes w' = processes w
  | Raise e w' =>
      e = TimeoutExpired /\ heap w' = heap w /\ processes w' = processes w
  | Hang => True
  end.
Proof.
  unfold Popen_wait.
  destruct (exit_at (deref h w)) as [[e rc]|], timeout as [t|]; simpl; auto.
  destruct (e <=? now w + t); simpl; auto.
Qed.

Lemma wait_frame id timeout w :
  match ParallelRunner.wait id timeout w with
  | Ret _ w' => steady w w'
  | Raise _ _ => False
  | Hang => True
  end.
Proof.
  unfold ParallelRunner.wait, ParallelRunner.lookup. unfold_m.
  destruct (dict_get id (processes w)) as [i|]; [|apply steady_refl].
  pose proof (Popen_wait_frame (process i) timeout w) as H.
  destruct (Popen_wait (process i) timeout w) as [rc w'|e w'|]; auto.
  - destruct H. now apply steady_same.
  - destruct H as (-> & Hh & Hp). now apply steady_same.
Qed.

Lemma wait_each_frame ps timeout w :
  match ParallelRunner.wait_each ps timeout w with
  | Ret _ w' => steady w w'
  | Raise _ _ => False
  | Hang => True
  end.
Proof.
  revert w. induction ps as [|h ps IH]; intros w; simpl.
  - apply steady_refl.
  - unfold_m.
    pose proof (Popen_wait_frame h timeout w) as H.
    destruct (Popen_wait h timeout w) as [rc w1|e w1|]; auto.
    + destruct H as [Hh Hp]. specialize (IH w1).
      destruct (ParallelRunner.wait_each ps timeout w1); auto.
      eapply steady_trans; [|eassumption]. now apply steady_same.
    + destruct H as (-> & Hh & Hp). specialize (IH w1).
      destruct (ParallelRunner.wait_each ps timeout w1); auto.
      eapply steady_trans; [|eassumption]. now apply steady_same.
Qed.

Lemma mark_not_running_get id k d i' :
  dict_get k (mark_not_running id d) = Some i' ->
  exists i, dict_get k d = Some i /\ process i' = process i.
Proof.
  unfold mark_not_running.
  destruct (dict_get id d) as [i0|] eqn:E; [|eauto].
  destruct (string_dec id k) as [<-|Hne].
  - rewrite dict_get_set_same. intros [= <-]. eauto.
  - rewrite dict_get_set_other by assumption. eauto.
Qed.

Lemma mark_not_running_ok id (d : dict Info) :
  dict_ok d -> dict_ok (mark_not_running id d).
Proof.
  unfold mark_not_running. destruct (dict_get id d); auto using dict_ok_set.
Qed.

Lemma Thread_join_frame tid w :
  match Thread_join tid w with
  | Ret _ w' => steady w w'
  | Raise _ _ => False
  | Hang => True
  end.
Proof.
  unfold Thread_join.
  destruct (nth_error (threads w) tid) as [t|]; [|apply steady_refl].
  destruct (th_finished t); [apply steady_refl|].
  destruct (exit_at (deref (th_process t) w)) as [[e rc]|]; [|exact I].
  repeat split; simpl; auto using mark_not_running_ok.
  intros k i'. apply mark_not_running_get.
Qed.

(** [run] either raises at once for a missing script, or blocks on a child
    that never exits, or returns after adding the record. *)
Lemma run_outcome script args show cb (wt : bool) tag child w :
  match ParallelRunner.run script args show cb wt tag child w with
  | Ret id w' =>
      id = chosen_id tag child /\
      heap w' = heap w ++
        [spawned (now w) (command (executable w) script args) child] /\
      processes w' =
        dict_set id
          (mkInfo (length (heap w)) (Some (length (threads w))) (negb wt))
          (processes w)
  | Raise _ w' => w' = w
  | Hang => True
  end.
Proof.
  destruct (existsb (String.eqb script) (fs w)) eqn:H.
  - destruct wt.
    + destruct (c_life child) as [[n rc]|] eqn:Hlife.
      * rewrite (run_waited _ _ _ _ _ _ _ _ _ H Hlife). simpl. auto.
      * now rewrite run_blocked.
    + rewrite run_started by assumption. simpl. auto.
  - now rewrite run_missing.
Qed.

Lemma run_keeps_ok script args show cb wt tag child w id w' :
  ParallelRunner.run script args show cb wt tag child w = Ret id w' ->
  world_ok w -> world_ok w'.
Proof.
  intros Hrun [Hok Hin].
  pose proof (run_outcome script args show cb wt tag child w) as H.
  rewrite Hrun in H. destruct H as (_ & Hheap & Hprocs).
  split.
  - rewrite Hprocs. now apply dict_ok_set.
  - intros k i. rewrite Hprocs, Hheap, length_app. simpl.
    destruct (string_dec id k) as [<-|Hne].
    + rewrite dict_get_set_same. intros [= <-]. simpl. lia.
    + rewrite dict_get_set_other by assumption.
      intros Hk. apply Hin in Hk. lia.
Qed.

Lemma perform_step c w :
  match perform c w with
  | Ret r w' =>
      (world_ok w -> world_ok w') /\
      forall k, In k (dict_keys (processes w')) ->
                In k (launched_by r (dict_keys (processes w)))
  | Raise _ w' => w' = w
  | Hang => True
  end.
Proof.
  assert (Hsteady : forall w', steady w w' ->
            (world_ok w -> world_ok w') /\
            forall k, In k (dict_keys (processes w')) ->
                      In k (dict_keys (processes w))).
  { intros w' Hst. split; [now apply steady_ok|].
    intros k. now apply steady_keys. }
  destruct c; simpl; unfold_m.
  - pose proof (run_outcome script_name args show_output cb wait0 tag child w)
      as H.
    destruct (ParallelRunner.run script_name args show_output cb wait0 tag
                child w) as [id w'|e w'|] eqn:Hrun; auto.
    split; [now apply (run_keeps_ok _ _ _ _ _ _ _ _ _ _ Hrun)|].
    destruct H as (_ & _ & Hprocs). intros k. rewrite Hprocs. simpl.
    rewrite !dict_get_In.
    destruct (string_dec id k) as [<-|Hne]; [auto|].
    rewrite dict_get_set_other by assumption. auto.
  - destruct (stop_returns process_id force w) as (w' & Hstop & _).
    rewrite Hstop. apply Hsteady. eapply stop_steady; eassumption.
  - unfold ParallelRunner.stop_all, ParallelRunner.snapshot. unfold_m.
    destruct (stop_each_returns (dict_keys (processes w)) force w)
      as (w' & Heach & Hst).
    rewrite Heach. now apply Hsteady.
  - unfold ParallelRunner.is_running, ParallelRunner.lookup, Popen_poll.
    unfold_m.
    destruct (dict_get process_id (processes w));
      apply Hsteady, steady_refl.
  - apply Hsteady, steady_refl.
  - pose proof (wait_frame process_id timeout w) as H.
    destruct (ParallelRunner.wait process_id timeout w); auto.
    contradiction.
  - unfold ParallelRunner.wait_all. unfold_m.
    pose proof (wait_each_frame
                  (map (fun kv => process (snd kv)) (processes w)) timeout w)
      as H.
    destruct (ParallelRunner.wait_each _ timeout w); auto. contradiction.
  - pose proof (Thread_join_frame tid w) as H.
    destruct (Thread_join tid w); auto. contradiction.
  - apply (Hsteady (set_now (now w + n) w)). apply steady_same; reflexivity.
Qed.

(** Every world of a history is well formed, and tracks only identifiers
    that [run] has returned. *)
Lemma history_invariant l w :
  history l w ->
  world_ok w /\ forall k, In k (dict_keys (processes w)) -> In k l.
Proof.
  induction 1 as [files exe | l w c r w' Hh [IHok IHk] Hp
                 | l w c e w' Hh IH Hp].
  - split; [|simpl; tauto].
    split; [constructor|]. simpl. discriminate.
  - pose proof (perform_step c w) as H. rewrite Hp in H.
    destruct H as [Hok Hk]. split; [auto|].
    intros k Hin. apply Hk in Hin. destruct r as [id|]; simpl in *; auto.
    destruct Hin; auto.
  - pose proof (perform_step c w) as H. rewrite Hp in H. now subst.
Qed.

(** What the loop of [stop_all] leaves: the identifiers it went through
    are gone, the other records are as before, and a [Popen] object that
    none of those identifiers led to is as before. *)
Lemma stop_each_spec ids force w :
  exists w',
    ParallelRunner.stop_each ids force w = Ret tt w' /\
    (forall k, dict_get k (processes w') =
               if in_dec string_dec k ids then None
               else dict_get k (processes w)) /\
    fs w' = fs w /\ executable w' = executable w /\
    threads w' = threads w /\ trace w' = trace w /\
    length (heap w') = length (heap w) /\
    now w <= now w' /\
    forall h,
      (forall k i, In k ids -> dict_get k (processes w) = Some i ->
                   process i <> h) ->
      deref h w' = deref h w.
Proof.
  revert w. induction ids as [|id ids IH]; intros w.
  - exists w. simpl. repeat split; auto.
  - destruct (stop_returns id force w)
      as (w1 & Hstop & Hp1 & Hf1 & He1 & Ht1 & Hr1 & Hl1 & Hn1 & Hd1).
    destruct (IH w1)
      as (w' & Heach & Hp & Hf & He & Ht & Hr & Hl & Hn & Hd).
    exists w'. split; [simpl; unfold bind; now rewrite Hstop|].
    split.
    { intros k. rewrite Hp, Hp1. simpl.
      destruct (string_dec id k) as [<-|Hne].
      - rewrite dict_get_remove_same. now destruct (in_dec string_dec id ids).
      - rewrite dict_get_remove_other by assumption.
        now destruct (in_dec string_dec k ids). }
    repeat split; try congruence; try lia.
    intros h Hh. rewrite Hd, Hd1; auto.
    + intros i Hi. apply (Hh id i); simpl; auto.
    + intros k i Hin Hk. rewrite Hp1 in Hk.
      apply dict_get_some_remove in Hk. apply (Hh k i); simpl; auto.
Qed.

Lemma stop_each_app ids1 ids2 force w :
  ParallelRunner.stop_each (ids1 ++ ids2) force w =
  bind (ParallelRunner.stop_each ids1 force)
       (fun _ => ParallelRunner.stop_each ids2 force) w.
Proof.
  revert w. induction ids1 as [|id ids1 IH]; intros w; simpl.
  - reflexivity.
  - unfold bind in *.
    destruct (ParallelRunner.stop id force w) as [b w1|e w1|]; auto.
Qed.

(** [list] reports the records of the registry, key by key. *)
Lemma list_spec w :
  dict_ok (processes w) ->
  exists ls,
    ParallelRunner.list_ w = Ret ls w /\
    dict_keys ls = dict_keys (processes w) /\
    forall k, dict_get k ls =
              option_map (ParallelRunner.status_of w)
                         (dict_get k (processes w)).
Proof.
  intros Hok. unfold ParallelRunner.list_, gets.
  set (g := fun kv : string * Info =>
              (fst kv, ParallelRunner.status_of w (snd kv))).
  assert (Hfold : forall d acc,
    NoDup (dict_keys acc ++ dict_keys d) ->
    fold_left
      (fun result kv =>
         dict_set (fst kv) (ParallelRunner.status_of w (snd kv)) result)
      d acc = acc ++ map g d).
  { induction d as [|[k v] d IH]; intros acc Hnd; simpl.
    - now rewrite app_nil_r.
    - simpl in Hnd. pose proof (NoDup_remove_2 _ _ _ Hnd) as Hnin.
      rewrite dict_set_absent
        by (intros Hin; apply Hnin; apply in_or_app; now left).
      rewrite IH.
      + now rewrite <- app_assoc.
      + unfold dict_keys in *. rewrite map_app. simpl.
        now rewrite <- app_assoc. }
  eexists. split; [reflexivity|].
  rewrite Hfold by exact Hok. simpl.
  split.
  - unfold dict_keys. rewrite map_map. reflexivity.
  - intros k. induction (processes w) as [|[k0 v0] d IH]; simpl; auto.
    destruct (String.eqb k0 k); auto.
    apply IH. unfold dict_ok in *. simpl in Hok. now inversion Hok.
Qed.

Lemma stubborn_world_history : history ["proc_4242"] stubborn_world.
Proof.
  apply (history_ret [] sample_world
           (CallRun "limiter.py" (Some []) true None false None stubborn)
           (Some "proc_4242") stubborn_world).
  - apply history_init.
  - reflexivity.
Qed.

Lemma stubborn_world_ok : world_ok stubborn_world.
Proof. exact (proj1 (history_invariant _ _ stubborn_world_history)). Qed.

Lemma tagged_world_ok : world_ok tagged_world.
Proof.
  apply (run_keeps_ok "a.py" (Some []) true None false (Some "a") polite
           sample_world "a").
  - reflexivity.
  - apply (proj1 (history_invariant [] _ (history_init _ _))).
Qed.

(** C5.  In a world reached by calls on the runner: [stop] on a tracked
    identifier returns [True] with the record removed, whatever the state
    of the process and whatever [force], and [stop] on the same identifier
    right after returns [False]; [stop] on an identifier that no [run] has
    returned returns [False]. *)
Theorem stop_twice l w id force force' :
  history l w ->
  (dict_mem id (processes w) = true ->
   exists w1,
     ParallelRunner.stop id force w = Ret true w1 /\
     dict_mem id (processes w1) = false /\
     ParallelRunner.stop id force' w1 = Ret false w1) /\
  (~ In id l -> ParallelRunner.stop id force w = Ret false w).
Proof.
  intros Hh. split.
  - intros Hmem.
    destruct (stop_returns id force w) as (w1 & Hstop & Hp & _).
    rewrite Hmem in Hstop. exists w1. split; [assumption|].
    assert (Hgone : dict_get id (processes w1) = None)
      by (rewrite Hp; apply dict_get_remove_same).
    split.
    + now apply dict_mem_false.
    + now apply stop_untracked.
  - intros Hnot. apply stop_untracked.
    destruct (history_invariant l w Hh) as [_ Hk].
    destruct (dict_get id (processes w)) eqn:E; [|reflexivity].
    exfalso. apply Hnot, Hk, dict_get_In. congruence.
Qed.

Lemma stop_twice_witness :
  history ["proc_4242"] stubborn_world /\
  dict_mem "proc_4242" (processes stubborn_world) = true /\
  ~ In "proc_1" ["proc_4242"] /\
  (exists w1,
     ParallelRunner.stop "proc_4242" false stubborn_world = Ret true w1 /\
     dict_mem "proc_4242" (processes w1) = false /\
     ParallelRunner.stop "proc_4242" true w1 = Ret false w1) /\
  ParallelRunner.stop "proc_1" false stubborn_world
    = Ret false stubborn_world.
Proof.
  assert (Hnot : ~ In "proc_1" ["proc_4242"])
    by (intros [H|[]]; discriminate H).
  split; [exact stubborn_world_history|].
  split; [reflexivity|]. split; [exact Hnot|].
  split.
  - apply (stop_twice ["proc_4242"] stubborn_world "proc_4242" false true
             stubborn_world_history).
    reflexivity.
  - apply (stop_twice ["proc_4242"] stubborn_world "proc_1" false true
             stubborn_world_history).
    exact Hnot.
Defined.

(** C6.  [run] with a tag that the registry already holds returns the tag;
    the registry has the same keys as before, with the record under the tag
    now that of the new process; [list] shows the tag once, with the new
    process id; the [Popen] object of the older process is as it was: no
    signal was sent to it. *)
Theorem run_tag_collision script args show cb (wt : bool) tag child w old :
  world_ok w ->
  existsb (String.eqb script) (fs w) = true ->
  (wt = true -> c_life child <> None) ->
  str_truthy tag = true ->
  dict_get tag (processes w) = Some old ->
  exists w' ls st,
    ParallelRunner.run script args show cb wt (Some tag) child w
      = Ret tag w' /\
    dict_keys (processes w') = dict_keys (processes w) /\
    dict_get tag (processes w') =
      Some (mkInfo (length (heap w)) (Some (length (threads w))) (negb wt)) /\
    process old <> length (heap w) /\
    ParallelRunner.list_ w' = Ret ls w' /\
    count_occ string_dec (dict_keys ls) tag = 1 /\
    dict_get tag ls = Some st /\
    ParallelRunner.st_pid st = c_pid child /\
    deref (process old) w' = deref (process old) w.
Proof.
  intros [Hok Hin] Hex Hwt Htag Hold.
  destruct (run_returns script args show cb wt (Some tag) child w Hex Hwt)
    as (w' & Hrun & Hheap & Hprocs & _).
  assert (Hid : chosen_id (Some tag) child = tag).
  { unfold chosen_id, ParallelRunner.make_id, or_str. now rewrite Htag. }
  rewrite Hid in *.
  assert (Hkey : In tag (dict_keys (processes w)))
    by (apply dict_get_In; congruence).
  assert (Hkeys : dict_keys (processes w') = dict_keys (processes w))
    by (rewrite Hprocs; now apply dict_keys_set_present).
  assert (Hok' : dict_ok (processes w'))
    by (rewrite Hprocs; now apply dict_ok_set).
  destruct (list_spec w' Hok') as (ls & Hlist & Hlk & Hlg).
  assert (Hnew : dict_get tag (processes w') =
                 Some (mkInfo (length (heap w))
                              (Some (length (threads w))) (negb wt)))
    by (rewrite Hprocs; apply dict_get_set_same).
  pose proof (Hin tag old Hold) as Hlt.
  exists w', ls, (ParallelRunner.status_of w'
                    (mkInfo (length (heap w))
                            (Some (length (threads w))) (negb wt))).
  repeat split; auto.
  - lia.
  - rewrite Hlk, Hkeys. apply NoDup_count_occ'; assumption.
  - rewrite Hlg, Hnew. reflexivity.
  - simpl. unfold deref. rewrite Hheap, nth_middle. reflexivity.
  - unfold deref. rewrite Hheap. apply app_nth1. assumption.
Qed.

Lemma run_tag_collision_witness :
  world_ok tagged_world /\
  existsb (String.eqb "b.py") (fs tagged_world) = true /\
  str_truthy "a" = true /\
  dict_get "a" (processes tagged_world) = Some (mkInfo 0 (Some 0) true) /\
  exists w' ls st,
    ParallelRunner.run "b.py" None true None true (Some "a") brief
      tagged_world = Ret "a" w' /\
    dict_keys (processes w') = dict_keys (processes tagged_world) /\
    dict_get "a" (processes w') = Some (mkInfo 1 (Some 1) false) /\
    0 <> 1 /\
    ParallelRunner.list_ w' = Ret ls w' /\
    count_occ string_dec (dict_keys ls) "a" = 1 /\
    dict_get "a" ls = Some st /\
    ParallelRunner.st_pid st = 4244%Z /\
    deref 0 w' = deref 0 tagged_world.
Proof.
  split; [exact tagged_world_ok|].
  split; [reflexivity|]. split; [reflexivity|]. split; [reflexivity|].
  apply (run_tag_collision "b.py" None true None true "a" brief tagged_world
           (mkInfo 0 (Some 0) true)).
  - exact tagged_world_ok.
  - reflexivity.
  - discriminate.
  - reflexivity.
  - reflexivity.
Defined.

(* ================================================================== *)
(** ** [stop_all] and launches made while it runs *)

Lemma In_firstn_skipn {A} n (l : list A) x :
  In x (firstn n l) \/ In x (skipn n l) -> In x l.
Proof.
  intros H. rewrite <- (firstn_skipn n l). apply in_or_app. exact H.
Qed.

(** C8 (as amended).  [stop_all] takes the identifiers tracked at that
    moment and calls [stop] on each in turn (with no other thread at work,
    [stop_all_during] is [stop_all]).  When another thread launches a
    process after the snapshot, at any point of the loop, under an
    identifier that is not in the snapshot, then after [stop_all] every
    identifier of the snapshot is untracked, while the late process is
    tracked, has received no signal and, unless it ends by itself, is
    running. *)
Theorem stop_all_spares_later_launch
    force n script args show cb tag child w :
  world_ok w ->
  existsb (String.eqb script) (fs w) = true ->
  ~ In (chosen_id tag child) (dict_keys (processes w)) ->
  stop_all_during force n (ret tt) w = ParallelRunner.stop_all force w /\
  exists w',
    stop_all_during force n
      (ParallelRunner.run script args show cb false tag child) w
      = Ret (chosen_id tag child) w' /\
    (forall k, In k (dict_keys (processes w)) ->
               dict_mem k (processes w') = false) /\
    dict_get (chosen_id tag child) (processes w') =
      Some (mkInfo (length (heap w)) (Some (length (threads w))) true) /\
    pid (deref (length (heap w)) w') = c_pid child /\
    signals (deref (length (heap w)) w') = [] /\
    (c_life child = None ->
     ParallelRunner.is_running (chosen_id tag child) w' = Ret true w').
Proof.
  intros Hok Hex Hfresh.
  set (y := chosen_id tag child) in *.
  set (ids := dict_keys (processes w)).
  split.
  { assert (E : ParallelRunner.stop_each ids force w =
                bind (ParallelRunner.stop_each (firstn n ids) force)
                  (fun _ => ParallelRunner.stop_each (skipn n ids) force) w)
      by (rewrite <- stop_each_app, firstn_skipn; reflexivity).
    unfold stop_all_during, ParallelRunner.stop_all, ParallelRunner.snapshot.
    unfold_m. fold ids. rewrite E. unfold bind.
    destruct (ParallelRunner.stop_each (firstn n ids) force w)
      as [[] w1|e w1|]; auto.
    destruct (ParallelRunner.stop_each (skipn n ids) force w1)
      as [[] w2|e w2|]; auto. }
  destruct (stop_each_spec (firstn n ids) force w)
    as (w1 & H1 & Hp1 & Hf1 & He1 & Ht1 & _ & Hl1 & _ & _).
  assert (Hok1 : world_ok w1).
  { destruct (stop_each_returns (firstn n ids) force w) as (w1' & H1' & Hst).
    rewrite H1 in H1'. injection H1' as <-. now apply (steady_ok w). }
  assert (Hex1 : existsb (String.eqb script) (fs w1) = true)
    by now rewrite Hf1.
  pose proof (run_started script args show cb tag child w1 Hex1) as H2.
  simpl in H2. fold y in H2.
  set (p := spawned (now w1) (command (executable w1) script args) child)
    in H2.
  set (w2 := mkWorld (fs w1) (executable w1) (now w1) (heap w1 ++ [p])
               (threads w1 ++
                [mkThread (length (heap w1)) y show cb false])
               (dict_set y
                  (mkInfo (length (heap w1)) (Some (length (threads w1)))
                          true)
                  (processes w1))
               (trace w1)) in H2.
  destruct (stop_each_spec (skipn n ids) force w2)
    as (w3 & H3 & Hp3 & _ & _ & _ & _ & _ & _ & Hd3).
  assert (Hy_skip : ~ In y (skipn n ids))
    by (intros Hin; apply Hfresh, (In_firstn_skipn n); now right).
  assert (Hderef : deref (length (heap w)) w3 = p).
  { rewrite Hd3.
    - unfold deref, w2. simpl. rewrite <- Hl1. apply nth_middle.
    - intros k i Hin Hk. unfold w2 in Hk. simpl in Hk.
      rewrite dict_get_set_other in Hk by (intros ->; contradiction).
      destruct Hok1 as [_ Hin1]. apply Hin1 in Hk. lia. }
  assert (Hget : dict_get y (processes w3) =
                 Some (mkInfo (length (heap w)) (Some (length (threads w)))
                              true)).
  { rewrite Hp3. destruct (in_dec string_dec y (skipn n ids)); [tauto|].
    unfold w2. simpl. rewrite dict_get_set_same. now rewrite Hl1, Ht1. }
  exists w3. split.
  { unfold stop_all_during, ParallelRunner.snapshot. unfold_m. fold ids.
    rewrite H1, H2, H3. reflexivity. }
  split.
  { intros k Hk. apply dict_mem_false. rewrite Hp3.
    destruct (in_dec string_dec k (skipn n ids)) as [|Hns]; [reflexivity|].
    unfold w2. simpl.
    rewrite dict_get_set_other by (intros <-; contradiction).
    rewrite Hp1. destruct (in_dec string_dec k (firstn n ids)) as [|Hnf];
      [reflexivity|].
    exfalso. fold ids in Hk. rewrite <- (firstn_skipn n ids) in Hk.
    apply in_app_or in Hk. tauto. }
  split; [exact Hget|].
  rewrite Hderef. split; [reflexivity|]. split; [reflexivity|].
  intros Hlife.
  unfold ParallelRunner.is_running, ParallelRunner.lookup, Popen_poll.
  unfold_m. rewrite Hget. simpl. rewrite Hderef.
  unfold poll_at, p, spawned. simpl. now rewrite Hlife.
Qed.

Lemma stop_all_spares_later_launch_witness :
  world_ok stubborn_world /\
  existsb (String.eqb "a.py") (fs stubborn_world) = true /\
  ~ In "proc_4243" (dict_keys (processes stubborn_world)) /\
  exists w',
    stop_all_during false 1
      (ParallelRunner.run "a.py" None true None false None polite)
      stubborn_world = Ret "proc_4243" w' /\
    (forall k, In k (dict_keys (processes stubborn_world)) ->
               dict_mem k (processes w') = false) /\
    dict_get "proc_4243" (processes w') = Some (mkInfo 1 (Some 1) true) /\
    pid (deref 1 w') = 4243%Z /\
    signals (deref 1 w') = [] /\
    (c_life polite = None ->
     ParallelRunner.is_running "proc_4243" w' = Ret true w').
Proof.
  assert (Hnot : ~ In "proc_4243" (dict_keys (processes stubborn_world)))
    by (intros [H|[]]; discriminate H).
  split; [exact stubborn_world_ok|].
  split; [reflexivity|]. split; [exact Hnot|].
  apply (stop_all_spares_later_launch false 1 "a.py" None true None None
           polite stubborn_world).
  - exact stubborn_world_ok.
  - reflexivity.
  - exact Hnot.
Defined.

(** C8 (as stated) fails.  In [tagged_world] the tag ["a"] is tracked and
    its process runs.  [stop_all] takes the snapshot [["a"]]; before its
    first [stop], another thread launches [b.py] under the tag ["a"].  The
    [stop] that follows finds the new process under ["a"]: that process
    receives SIGTERM, exits, and is no longer tracked when [stop_all] is
    done, while the process that was tracked at the snapshot got no signal
    and still runs. *)
Lemma stop_all_stops_later_launch_under_same_tag :
  ParallelRunner.snapshot tagged_world = Ret ["a"] tagged_world /\
  stop_all_during false 0 (run "b.py" [] false (Some "a") latecomer)
    tagged_world = Ret "a" overrun_world /\
  dict_mem "a" (processes overrun_world) = false /\
  pid (deref 1 overrun_world) = c_pid latecomer /\
  signals (deref 1 overrun_world) = [SIGTERM] /\
  poll_at (now overrun_world) (deref 1 overrun_world) = Some (-15)%Z /\
  pid (deref 0 overrun_world) = c_pid polite /\
  signals (deref 0 overrun_world) = [] /\
  poll_at (now overrun_world) (deref 0 overrun_world) = None.
Proof. repeat split. Qed.

(* ================================================================== *)
(** ** More about [stop], [stop_all], [kill] and [kill_all] *)

(** X1.  [stop] never raises and never blocks for more than 5 seconds,
    whatever the state of the process and whatever [force]: it returns
    whether the identifier was tracked, the identifier is untracked
    afterwards, every other record is as before, and neither the threads
    nor the console are touched. *)
Theorem stop_always_returns id (force : bool) w :
  exists w',
    ParallelRunner.stop id force w = Ret (dict_mem id (processes w)) w' /\
    dict_get id (processes w') = None /\
    (forall k, k <> id ->
       dict_get k (processes w') = dict_get k (processes w)) /\
    now w <= now w' <= now w + 5 /\
    threads w' = threads w /\ trace w' = trace w /\
    length (heap w') = length (heap w).
Proof.
  destruct (stop_returns id force w)
    as (w' & Hstop & Hp & _ & _ & Ht & Hr & Hl & Hn & _).
  exists w'. rewrite Hp. repeat split; auto; try lia.
  - apply dict_get_remove_same.
  - intros k Hk. apply dict_get_remove_other. congruence.
Qed.

(** X2.  [kill] on a tracked process that has not exited delivers SIGKILL
    and nothing else, returns [True] without any time passing, and then the
    process has exited with code -9 and is untracked. *)
Theorem kill_ends_running_process id w info :
  dict_get id (processes w) = Some info ->
  poll_at (now w) (deref (process info) w) = None ->
  exists w',
    kill id w = Ret true w' /\
    now w' = now w /\
    signals (deref (process info) w') =
      signals (deref (process info) w) ++ [SIGKILL] /\
    poll_at (now w') (deref (process info) w') = Some (-9)%Z /\
    dict_get id (processes w') = None.
Proof.
  intros Hget Hpoll.
  pose proof (running_in_heap _ _ Hpoll) as Hin.
  pose proof (stop_running id true w info Hget Hpoll) as Hstop.
  simpl in Hstop. unfold kill. eexists. split; [exact Hstop|].
  assert (Hd : forall t x d0, deref (process info)
             (mkWorld (fs w) (executable w) t
                (list_update (process info) (deliver SIGKILL (now w)) (heap w))
                x d0 (trace w))
             = deliver SIGKILL (now w) (deref (process info) w)).
  { intros. unfold deref. simpl. now rewrite nth_list_update_same. }
  rewrite Hd. simpl.
  assert (Hend : grace_end (now w)
                   (deliver SIGKILL (now w) (deref (process info) w))
                 = now w).
  { unfold grace_end. rewrite deliver_kill by assumption.
    replace (now w <=? now w + 5) with true
      by (symmetry; apply Nat.leb_le; lia).
    lia. }
  rewrite Hend.
  split; [reflexivity|].
  split; [now apply deliver_running|].
  split.
  - unfold poll_at. rewrite deliver_kill by assumption.
    now rewrite Nat.leb_refl.
  - apply dict_get_remove_same.
Qed.

Lemma kill_ends_running_process_witness :
  dict_get "proc_4242" (processes stubborn_world)
    = Some (mkInfo 0 (Some 0) true) /\
  poll_at (now stubborn_world) (deref 0 stubborn_world) = None /\
  exists w',
    kill "proc_4242" stubborn_world = Ret true w' /\
    now w' = now stubborn_world /\
    signals (deref 0 w') = signals (deref 0 stubborn_world) ++ [SIGKILL] /\
    poll_at (now w') (deref 0 w') = Some (-9)%Z /\
    dict_get "proc_4242" (processes w') = None.
Proof.
  split; [reflexivity|]. split; [reflexivity|].
  apply (kill_ends_running_process "proc_4242" stubborn_world
           (mkInfo 0 (Some 0) true)); reflexivity.
Defined.

Lemma dict_all_absent {V} (d : dict V) :
  (forall k, dict_get k d = None) -> d = [].
Proof.
  destruct d as [|[k v] d]; [reflexivity|].
  intros H. specialize (H k). simpl in H.
  rewrite String.eqb_refl in H. discriminate.
Qed.

Lemma stop_each_duration ids force w w' :
  ParallelRunner.stop_each ids force w = Ret tt w' ->
  now w' <= now w + 5 * length ids.
Proof.
  revert w. induction ids as [|id ids IH]; intros w; simpl.
  - intros [= <-]. lia.
  - unfold bind.
    destruct (stop_returns id force w) as (w1 & Hstop & Hrest).
    rewrite Hstop. intros H. apply IH in H.
    destruct Hrest as (_ & _ & _ & _ & _ & _ & Hn & _). lia.
Qed.

(** The loop of [stop_all] over all the keys leaves the registry empty. *)
Lemma stop_each_all_keys (force : bool) w :
  exists w',
    ParallelRunner.stop_each (dict_keys (processes w)) force w = Ret tt w' /\
    processes w' = [] /\
    now w <= now w' <= now w + 5 * length (processes w).
Proof.
  destruct (stop_each_spec (dict_keys (processes w)) force w)
    as (w' & Heach & Hp & _ & _ & _ & _ & _ & Hn & _).
  exists w'. split; [exact Heach|]. split.
  - apply dict_all_absent. intros k. rewrite Hp.
    destruct (in_dec string_dec k (dict_keys (processes w))) as [|Hnin];
      [reflexivity|].
    destruct (dict_get k (processes w)) eqn:E; [|reflexivity].
    exfalso. apply Hnin, dict_get_In. congruence.
  - split; [exact Hn|].
    apply stop_each_duration in Heach.
    unfold dict_keys in Heach. now rewrite length_map in Heach.
Qed.

(** X3.  [stop_all] always returns; afterwards the registry is empty, so
    that [is_running] answers [False] for every identifier, and no more
    than 5 seconds per tracked identifier have passed. *)
Theorem stop_all_empties_registry (force : bool) w :
  exists w',
    stop_all force w = Ret tt w' /\
    processes w' = [] /\
    now w <= now w' <= now w + 5 * length (processes w) /\
    forall id, is_running id w' = Ret false w'.
Proof.
  destruct (stop_each_all_keys force w) as (w' & Heach & Hempty & Hn).
  exists w'. split.
  { unfold stop_all, ParallelRunner.stop_all, ParallelRunner.snapshot.
    unfold_m. exact Heach. }
  split; [exact Hempty|]. split; [exact Hn|].
  intros id.
  unfold is_running, ParallelRunner.is_running, ParallelRunner.lookup.
  unfold_m. now rewrite Hempty.
Qed.

Lemma poll_at_later t t' p :
  t <= t' -> poll_at t p <> None -> poll_at t' p <> None.
Proof.
  unfold poll_at. intros Hle.
  destruct (exit_at p) as [[e rc]|]; [|auto].
  destruct (e <=? t) eqn:E; [|congruence].
  apply Nat.leb_le in E.
  replace (e <=? t') with true by (symmetry; apply Nat.leb_le; lia).
  discriminate.
Qed.

Lemma settled_later force t t' p :
  t <= t' -> settled force t p -> settled force t' p.
Proof.
  intros Hle [H|H]; [left | right; assumption].
  now apply (poll_at_later t).
Qed.

(** One [stop]: what was settled stays settled, and the process found
    under the identifier is settled. *)
Lemma stop_settles id (force : bool) w w' b :
  ParallelRunner.stop id force w = Ret b w' ->
  (forall h, settled force (now w) (deref h w) ->
             settled force (now w') (deref h w')) /\
  (forall i, dict_get id (processes w) = Some i ->
             settled force (now w') (deref (process i) w')).
Proof.
  intros Hstop.
  destruct (dict_get id (processes w)) as [info|] eqn:Hget.
  - destruct (poll_at (now w) (deref (process info) w)) eqn:Hpoll.
    + rewrite (stop_exited id force w info Hget) in Hstop by congruence.
      injection Hstop as _ <-. split.
      * intros h Hs. exact Hs.
      * intros i [= <-]. left. unfold deref in *. simpl. congruence.
    + pose proof (running_in_heap _ _ Hpoll) as Hin.
      rewrite (stop_running id force w info Hget Hpoll) in Hstop.
      injection Hstop as _ <-.
      set (s := if force then SIGKILL else SIGTERM).
      set (p := deref (process info) w) in *.
      assert (Hge : now w <= grace_end (now w) (deliver s (now w) p)).
      { unfold grace_end. destruct (exit_at _) as [[e rc]|]; [|lia].
        destruct (e <=? now w + 5); lia. }
      assert (Hself : settled force (grace_end (now w) (deliver s (now w) p))
                        (deliver s (now w) p)).
      { apply (settled_later force (now w)); [assumption|].
        unfold s. destruct force.
        - left. unfold poll_at. rewrite deliver_kill by assumption.
          now rewrite Nat.leb_refl.
        - right. split; [reflexivity|].
          rewrite deliver_running by assumption.
          apply in_or_app. right. now left. }
      split.
      * intros h Hs. unfold deref. simpl.
        destruct (Nat.eq_dec (process info) h) as [<-|Hne].
        -- rewrite nth_list_update_same by assumption. exact Hself.
        -- rewrite nth_list_update_other by assumption.
           now apply (settled_later force (now w)).
      * intros i [= <-]. unfold deref. simpl.
        rewrite nth_list_update_same by assumption. exact Hself.
  - rewrite (stop_untracked id force w Hget) in Hstop.
    injection Hstop as _ <-. split; [auto | discriminate].
Qed.

Lemma stop_each_settles ids (force : bool) w w' :
  ParallelRunner.stop_each ids force w = Ret tt w' ->
  (forall h, settled force (now w) (deref h w) ->
             settled force (now w') (deref h w')) /\
  (forall k i, In k ids -> dict_get k (processes w) = Some i ->
               settled force (now w') (deref (process i) w')).
Proof.
  revert w. induction ids as [|id ids IH]; intros w; simpl.
  - intros [= <-]. split; [auto | tauto].
  - unfold bind.
    destruct (stop_returns id force w) as (w1 & Hstop & Hp1 & _).
    rewrite Hstop. intros Hrest.
    destruct (stop_settles id force w w1 _ Hstop) as [Hkeep1 Hnew1].
    destruct (IH w1 Hrest) as [Hkeep Hnew].
    split.
    + intros h Hs. auto.
    + intros k i [<-|Hin] Hk.
      * auto.
      * destruct (string_dec id k) as [<-|Hne]; [auto|].
        apply (Hnew k i Hin). rewrite Hp1.
        now rewrite dict_get_remove_other.
Qed.

(** A [stop] that is not forced delivers no SIGKILL. *)
Lemma stop_graceful_never_kills id w w' b h :
  ParallelRunner.stop id false w = Ret b w' ->
  In SIGKILL (signals (deref h w')) -> In SIGKILL (signals (deref h w)).
Proof.
  intros Hstop.
  destruct (dict_get id (processes w)) as [info|] eqn:Hget.
  - destruct (poll_at (now w) (deref (process info) w)) eqn:Hpoll.
    + rewrite (stop_exited id false w info Hget) in Hstop by congruence.
      injection Hstop as _ <-. auto.
    + pose proof (running_in_heap _ _ Hpoll) as Hin.
      rewrite (stop_running id false w info Hget Hpoll) in Hstop.
      injection Hstop as _ <-. unfold deref. simpl.
      destruct (Nat.eq_dec (process info) h) as [<-|Hne].
      * rewrite nth_list_update_same by assumption.
        fold (deref (process info) w).
        rewrite deliver_running by assumption.
        intros H. apply in_app_or in H. destruct H as [H|[H|[]]];
          [assumption | discriminate].
      * now rewrite nth_list_update_other by assumption.
  - rewrite (stop_untracked id false w Hget) in Hstop.
    injection Hstop as _ <-. auto.
Qed.

Lemma stop_each_graceful_never_kills ids w w' h :
  ParallelRunner.stop_each ids false w = Ret tt w' ->
  In SIGKILL (signals (deref h w')) -> In SIGKILL (signals (deref h w)).
Proof.
  revert w. induction ids as [|id ids IH]; intros w; simpl.
  - now intros [= <-].
  - unfold bind.
    destruct (ParallelRunner.stop id false w) as [b w1|e w1|] eqn:Hstop;
      try discriminate.
    intros Hrest Hin.
    apply (stop_graceful_never_kills id w w1 b h Hstop).
    now apply (IH w1).
Qed.

(** X4.  After [stop_all()], not forced, every process that was tracked
    has either exited or been sent SIGTERM, and no process, tracked or not,
    was sent SIGKILL. *)
Theorem stop_all_reaches_every_process w :
  exists w',
    stop_all false w = Ret tt w' /\
    (forall k i, dict_get k (processes w) = Some i ->
       poll_at (now w') (deref (process i) w') <> None \/
       In SIGTERM (signals (deref (process i) w'))) /\
    (forall h, In SIGKILL (signals (deref h w')) ->
               In SIGKILL (signals (deref h w))).
Proof.
  destruct (stop_each_spec (dict_keys (processes w)) false w)
    as (w' & Heach & _).
  exists w'. split.
  { unfold stop_all, ParallelRunner.stop_all, ParallelRunner.snapshot.
    unfold_m. exact Heach. }
  split.
  - intros k i Hk.
    destruct (stop_each_settles _ _ _ _ Heach) as [_ Hnew].
    destruct (Hnew k i) as [H|[_ H]]; auto.
    apply dict_get_In. congruence.
  - intros h. exact (stop_each_graceful_never_kills _ w w' h Heach).
Qed.

Lemma stop_forced_instant id w w' b :
  ParallelRunner.stop id true w = Ret b w' -> now w' = now w.
Proof.
  intros Hstop.
  destruct (dict_get id (processes w)) as [info|] eqn:Hget.
  - destruct (poll_at (now w) (deref (process info) w)) eqn:Hpoll.
    + rewrite (stop_exited id true w info Hget) in Hstop by congruence.
      now injection Hstop as _ <-.
    + rewrite (stop_running id true w info Hget Hpoll) in Hstop.
      injection Hstop as _ <-. simpl.
      unfold grace_end. rewrite deliver_kill by assumption.
      replace (now w <=? now w + 5) with true
        by (symmetry; apply Nat.leb_le; lia).
      lia.
  - rewrite (stop_untracked id true w Hget) in Hstop.
    now injection Hstop as _ <-.
Qed.

(** X5.  [kill_all] returns without any time passing; afterwards every
    process that was tracked has exited and the registry is empty. *)
Theorem kill_all_ends_every_process w :
  exists w',
    kill_all w = Ret tt w' /\
    now w' = now w /\
    processes w' = [] /\
    forall k i, dict_get k (processes w) = Some i ->
      poll_at (now w') (deref (process i) w') <> None.
Proof.
  destruct (stop_each_all_keys true w) as (w' & Hall & Hempty & _).
  exists w'. split.
  { unfold kill_all, ParallelRunner.stop_all, ParallelRunner.snapshot.
    unfold_m. exact Hall. }
  split.
  { clear Hempty. revert Hall. generalize (dict_keys (processes w)).
    intros ids. revert w. induction ids as [|id ids IH]; intros w; simpl.
    - now intros [= <-].
    - unfold bind.
      destruct (ParallelRunner.stop id true w) as [b w1|e w1|] eqn:Hstop;
        try discriminate.
      intros H. apply IH in H. apply stop_forced_instant in Hstop.
      congruence. }
  split; [exact Hempty|].
  intros k i Hk.
  destruct (stop_each_settles _ _ _ _ Hall) as [_ Hnew].
  destruct (Hnew k i) as [H|[H _]]; auto; try discriminate.
  apply dict_get_In. congruence.
Qed.

(* ================================================================== *)
(** ** [wait] and [wait_all] *)

Lemma Popen_wait_cases h timeout w :
  match Popen_wait h timeout w with
  | Ret rc w' =>
      exists e, exit_at (deref h w) = Some (e, rc) /\
                w' = set_now (Nat.max (now w) e) w /\
                forall t, timeout = Some t -> e <= now w + t
  | Raise ex w' =>
      ex = TimeoutExpired /\
      exists t, timeout = Some t /\ w' = set_now (now w + t) w /\
                poll_at (now w + t) (deref h w) = None
  | Hang => timeout = None /\ exit_at (deref h w) = None
  end.
Proof.
  unfold Popen_wait, poll_at.
  destruct (exit_at (deref h w)) as [[e rc]|], timeout as [t|]; simpl.
  - destruct (e <=? now w + t) eqn:E.
    + apply Nat.leb_le in E. exists e. repeat split; auto.
      now intros t' [= <-].
    + split; [reflexivity|]. exists t. rewrite E. auto.
  - exists e. repeat split; auto. discriminate.
  - split; [reflexivity|]. exists t. auto.
  - auto.
Qed.

(** X6.  [wait] on a tracked identifier never raises and changes nothing
    but the clock.  It returns the exit code exactly when the process has
    exited by the time it comes back, which is then the moment of the exit
    (or at once, for a process already gone); [None] means that the whole
    timeout went by with the process still running.  It blocks for ever
    only without timeout on a process that never exits.  The record stays
    in the registry in every case. *)
Theorem wait_reports_exit id timeout w info :
  dict_get id (processes w) = Some info ->
  match ParallelRunner.wait id timeout w with
  | Ret r w' =>
      w' = set_now (now w') w /\
      r = poll_at (now w') (deref (process info) w) /\
      match r with
      | Some rc => exists e, exit_at (deref (process info) w) = Some (e, rc) /\
                             now w' = Nat.max (now w) e
      | None => exists t, timeout = Some t /\ now w' = now w + t
      end
  | Raise _ _ => False
  | Hang => timeout = None /\ exit_at (deref (process info) w) = None
  end.
Proof.
  intros Hget.
  unfold ParallelRunner.wait, ParallelRunner.lookup. unfold_m.
  rewrite Hget.
  pose proof (Popen_wait_cases (process info) timeout w) as H.
  destruct (Popen_wait (process info) timeout w) as [rc w'|ex w'|].
  - destruct H as (e & He & -> & Ht). simpl.
    split; [reflexivity|]. split.
    + unfold poll_at. rewrite He.
      replace (e <=? Nat.max (now w) e) with true
        by (symmetry; apply Nat.leb_le; lia).
      reflexivity.
    + exists e. auto.
  - destruct H as (-> & t & Ht & -> & Hp). simpl.
    split; [reflexivity|]. split; [now rewrite Hp|]. exists t. auto.
  - exact H.
Qed.

Lemma wait_reports_exit_witness :
  dict_get "proc_4244" (processes brief_world)
    = Some (mkInfo 0 (Some 0) true) /\
  ParallelRunner.wait "proc_4244" (Some 2) brief_world
    = Ret None (set_now 2 brief_world) /\
  ParallelRunner.wait "proc_4244" (Some 5) brief_world
    = Ret (Some 0%Z) (set_now 3 brief_world) /\
  match ParallelRunner.wait "proc_4244" None brief_world with
  | Ret r w' =>
      w' = set_now (now w') brief_world /\
      r = poll_at (now w') (deref 0 brief_world) /\
      match r with
      | Some rc => exists e, exit_at (deref 0 brief_world) = Some (e, rc) /\
                             now w' = Nat.max (now brief_world) e
      | None => exists t, None = Some t /\ now w' = now brief_world + t
      end
  | Raise _ _ => False
  | Hang => None = None :> option seconds /\
            exit_at (deref 0 brief_world) = None
  end.
Proof.
  split; [reflexivity|]. split; [reflexivity|]. split; [reflexivity|].
  apply (wait_reports_exit "proc_4244" None brief_world
           (mkInfo 0 (Some 0) true)).
  reflexivity.
Defined.

Lemma wait_each_spec ps timeout w :
  match ParallelRunner.wait_each ps timeout w with
  | Ret _ w' =>
      w' = set_now (now w') w /\ now w <= now w' /\
      (timeout = None ->
       forall h, In h ps -> poll_at (now w') (deref h w) <> None) /\
      (forall t, timeout = Some t -> now w' <= now w + t * length ps)
  | Raise _ _ => False
  | Hang =>
      timeout = None /\ exists h, In h ps /\ exit_at (deref h w) = None
  end.
Proof.
  revert w. induction ps as [|h ps IH]; intros w; simpl.
  - unfold ret. destruct w. simpl. repeat split; auto; try lia; try tauto.
  - unfold_m.
    pose proof (Popen_wait_cases h timeout w) as H.
    destruct (Popen_wait h timeout w) as [rc w1|ex w1|].
    + destruct H as (e & He & -> & Ht).
      specialize (IH (set_now (Nat.max (now w) e) w)).
      destruct (ParallelRunner.wait_each ps timeout _) as [[] w'|e' w'|];
        auto.
      * destruct IH as (Hw & Hn & Hall & Hbound). simpl in *.
        split; [exact Hw|]. split; [lia|]. split.
        -- intros Hnone h' [<-|Hin]; [|now apply Hall].
           unfold poll_at. rewrite He.
           replace (e <=? now w') with true
             by (symmetry; apply Nat.leb_le; lia).
           discriminate.
        -- intros t Ht'. specialize (Ht t Ht'). specialize (Hbound t Ht').
           lia.
      * destruct IH as (Hnone & h' & Hin & Hh'). split; [assumption|].
        exists h'. auto.
    + destruct H as (-> & t & Ht & -> & Hp).
      specialize (IH (set_now (now w + t) w)).
      destruct (ParallelRunner.wait_each ps timeout _) as [[] w'|e' w'|];
        auto.
      * destruct IH as (Hw & Hn & Hall & Hbound). simpl in *.
        split; [exact Hw|]. split; [lia|]. split.
        -- intros Hnone. congruence.
        -- intros t' Ht'. specialize (Hbound t' Ht').
           assert (t' = t) by congruence. subst. lia.
      * destruct IH as (Hnone & _). congruence.
    + destruct H as [Hnone Hexit]. split; [assumption|].
      exists h. auto.
Qed.

(** X7.  [wait_all] never raises and changes nothing but the clock.  With
    a timeout it always returns, after at most the timeout per record;
    without one it returns once every tracked process has exited, and
    blocks for ever exactly when one of them never exits. *)
Theorem wait_all_spec timeout w :
  match wait_all timeout w with
  | Ret _ w' =>
      w' = set_now (now w') w /\ now w <= now w' /\
      (timeout = None ->
       forall k i, In (k, i) (processes w) ->
                   poll_at (now w') (deref (process i) w') <> None) /\
      (forall t, timeout = Some t ->
                 now w' <= now w + t * length (processes w))
  | Raise _ _ => False
  | Hang =>
      timeout = None /\
      exists k i, In (k, i) (processes w) /\
                  exit_at (deref (process i) w) = None
  end.
Proof.
  unfold wait_all, ParallelRunner.wait_all. unfold_m.
  pose proof (wait_each_spec
                (map (fun kv => process (snd kv)) (processes w)) timeout w)
    as H.
  destruct (ParallelRunner.wait_each _ timeout w) as [[] w'|e w'|]; auto.
  - destruct H as (Hw & Hn & Hall & Hbound).
    split; [exact Hw|]. split; [exact Hn|]. split.
    + intros Hnone k i Hin.
      replace (deref (process i) w') with (deref (process i) w)
        by (rewrite Hw; reflexivity).
      apply (Hall Hnone). apply in_map_iff. exists (k, i). auto.
    + intros t Ht. rewrite length_map in Hbound. auto.
  - destruct H as (Hnone & h & Hin & Hh). split; [assumption|].
    apply in_map_iff in Hin. destruct Hin as ([k i] & <- & Hin).
    exists k, i. auto.
Qed.

(** X8.  Waiting for a process and then stopping it: [wait] returns the
    exit code and leaves the record in place; the [stop] that follows
    returns [True], sends no signal to any process and takes no time. *)
Theorem wait_then_stop id (force : bool) w info e rc :
  dict_get id (processes w) = Some info ->
  exit_at (deref (process info) w) = Some (e, rc) ->
  exists w1 w2,
    wait id None w = Ret (Some rc) w1 /\
    dict_get id (processes w1) = Some info /\
    stop id force w1 = Ret true w2 /\
    heap w2 = heap w /\
    now w2 = Nat.max (now w) e /\
    dict_get id (processes w2) = None.
Proof.
  intros Hget He.
  set (w1 := set_now (Nat.max (now w) e) w).
  assert (Hwait : wait id None w = Ret (Some rc) w1).
  { unfold wait, ParallelRunner.wait, ParallelRunner.lookup, Popen_wait.
    unfold_m. now rewrite Hget, He. }
  assert (Hget1 : dict_get id (processes w1) = Some info) by exact Hget.
  exists w1, (set_processes (dict_remove id (processes w1)) w1).
  split; [exact Hwait|]. split; [exact Hget1|]. split.
  - apply (stop_exited id force w1 info Hget1).
    unfold poll_at, w1, deref. simpl. fold (deref (process info) w).
    rewrite He.
    replace (e <=? Nat.max (now w) e) with true
      by (symmetry; apply Nat.leb_le; lia).
    discriminate.
  - simpl. split; [reflexivity|]. split; [reflexivity|].
    apply dict_get_remove_same.
Qed.

Lemma wait_then_stop_witness :
  dict_get "proc_4244" (processes brief_world)
    = Some (mkInfo 0 (Some 0) true) /\
  exit_at (deref 0 brief_world) = Some (3, 0%Z) /\
  exists w1 w2,
    wait "proc_4244" None brief_world = Ret (Some 0%Z) w1 /\
    dict_get "proc_4244" (processes w1) = Some (mkInfo 0 (Some 0) true) /\
    stop "proc_4244" false w1 = Ret true w2 /\
    heap w2 = heap brief_world /\
    now w2 = Nat.max (now brief_world) 3 /\
    dict_get "proc_4244" (processes w2) = None.
Proof.
  split; [reflexivity|]. split; [reflexivity|].
  apply (wait_then_stop "proc_4244" false brief_world
           (mkInfo 0 (Some 0) true) 3 0%Z); reflexivity.
Defined.

(* ================================================================== *)
(** ** More about [run] *)

Lemma proc_id_inj a b :
  ParallelRunner.make_id None a = ParallelRunner.make_id None b -> a = b.
Proof.
  unfold ParallelRunner.make_id, or_str. simpl. intros [= H].
  now apply str_int_inj.
Qed.

(** X9.  Two launches without a tag, of children with different process
    ids, return two different identifiers of the form [proc_<pid>], and
    both processes are tracked afterwards, each under its own. *)
Theorem untagged_launches_get_distinct_ids
    s1 a1 so1 cb1 c1 s2 a2 so2 cb2 c2 w :
  existsb (String.eqb s1) (fs w) = true ->
  existsb (String.eqb s2) (fs w) = true ->
  c_pid c1 <> c_pid c2 ->
  let id1 := String.append "proc_" (str_int (c_pid c1)) in
  let id2 := String.append "proc_" (str_int (c_pid c2)) in
  exists w1 w2,
    ParallelRunner.run s1 a1 so1 cb1 false None c1 w = Ret id1 w1 /\
    ParallelRunner.run s2 a2 so2 cb2 false None c2 w1 = Ret id2 w2 /\
    id1 <> id2 /\
    dict_get id1 (processes w2) =
      Some (mkInfo (length (heap w)) (Some (length (threads w))) true) /\
    dict_get id2 (processes w2) =
      Some (mkInfo (S (length (heap w))) (Some (S (length (threads w))))
                   true).
Proof.
  intros H1 H2 Hpid id1 id2.
  assert (Hne : id1 <> id2).
  { intros E. apply Hpid. now apply proc_id_inj. }
  pose proof (run_started s1 a1 so1 cb1 None c1 w H1) as R1.
  simpl in R1. change (chosen_id None c1) with id1 in R1.
  eexists. eexists. split; [exact R1|].
  split.
  { rewrite run_started by exact H2. reflexivity. }
  split; [exact Hne|]. simpl.
  change (chosen_id None c2) with id2.
  rewrite !length_app. simpl. rewrite !Nat.add_1_r.
  split.
  - rewrite dict_get_set_other by congruence. apply dict_get_set_same.
  - apply dict_get_set_same.
Qed.

Lemma untagged_launches_get_distinct_ids_witness :
  existsb (String.eqb "a.py") (fs sample_world) = true /\
  existsb (String.eqb "b.py") (fs sample_world) = true /\
  c_pid polite <> c_pid brief /\
  exists w1 w2,
    ParallelRunner.run "a.py" None true None false None polite sample_world
      = Ret "proc_4243" w1 /\
    ParallelRunner.run "b.py" None false (Some 7) false None brief w1
      = Ret "proc_4244" w2 /\
    "proc_4243" <> "proc_4244" /\
    dict_get "proc_4243" (processes w2) = Some (mkInfo 0 (Some 0) true) /\
    dict_get "proc_4244" (processes w2) = Some (mkInfo 1 (Some 1) true).
Proof.
  split; [reflexivity|]. split; [reflexivity|]. split; [discriminate|].
  apply (untagged_launches_get_distinct_ids
           "a.py" None true None polite "b.py" None false (Some 7) brief
           sample_world); [reflexivity | reflexivity | discriminate].
Defined.



Lemma run_waited_trace_witness :
  existsb (String.eqb "a.py") (fs sample_world) = true /\
  c_life brief = Some (3, 0%Z) /\
  c_stdout brief = map (fun b => String.append b nl) ["A"; "B"] /\
  exists w',
    ParallelRunner.run "a.py" None true None true (Some "t") brief
      sample_world = Ret "t" w' /\
    trace w' = trace sample_world ++ [Print "[t]: A"; Print "[t]: B"].
Proof.
  split; [reflexivity|]. split; [reflexivity|]. split; [reflexivity|].
  apply (run_waited_trace "a.py" None true None (Some "t") brief
           sample_world 3 0%Z ["A"; "B"]);
    try reflexivity.
  repeat constructor.
Defined.

Lemma dict_remove_set {V} k (v : V) d :
  dict_remove k (dict_set k v d) = dict_remove k d.
Proof.
  induction d as [|[k0 v0] d IH]; simpl.
  - now rewrite String.eqb_refl.
  - destruct (String.eqb k0 k) eqn:E; simpl.
    + now rewrite String.eqb_refl.
    + now rewrite E, IH.
Qed.

(** X12.  A launch followed by [stop] on the identifier it returned: the
    [stop] returns [True], and the registry is what it was before the
    launch, without the identifier.  So it is back to what it was when the
    identifier was new, and has lost the record of the older process when
    the launch reused a tag. *)
Theorem launch_then_stop script args show cb (wt force : bool) tag child w :
  existsb (String.eqb script) (fs w) = true ->
  (wt = true -> c_life child <> None) ->
  exists w1 w2,
    ParallelRunner.run script args show cb wt tag child w
      = Ret (chosen_id tag child) w1 /\
    ParallelRunner.stop (chosen_id tag child) force w1 = Ret true w2 /\
    processes w2 = dict_remove (chosen_id tag child) (processes w) /\
    (dict_mem (chosen_id tag child) (processes w) = false ->
     processes w2 = processes w).
Proof.
  intros Hex Hwt.
  destruct (run_returns script args show cb wt tag child w Hex Hwt)
    as (w1 & Hrun & _ & Hp1 & _).
  destruct (stop_returns (chosen_id tag child) force w1)
    as (w2 & Hstop & Hp2 & _).
  assert (Hmem : dict_mem (chosen_id tag child) (processes w1) = true).
  { unfold dict_mem. now rewrite Hp1, dict_get_set_same. }
  rewrite Hmem in Hstop.
  assert (Hp : processes w2 = dict_remove (chosen_id tag child) (processes w))
    by (rewrite Hp2, Hp1; apply dict_remove_set).
  exists w1, w2. repeat split; auto.
  intros Habs. rewrite Hp. apply dict_remove_absent.
  now apply dict_mem_false.
Qed.

Lemma launch_then_stop_witness :
  existsb (String.eqb "b.py") (fs tagged_world) = true /\
  exists w1 w2,
    ParallelRunner.run "b.py" None true None false (Some "a") brief
      tagged_world = Ret "a" w1 /\
    ParallelRunner.stop "a" false w1 = Ret true w2 /\
    processes w2 = dict_remove "a" (processes tagged_world) /\
    (dict_mem "a" (processes tagged_world) = false ->
     processes w2 = processes tagged_world).
Proof.
  split; [reflexivity|].
  apply (launch_then_stop "b.py" None true None false false (Some "a") brief
           tagged_world).
  - reflexivity.
  - discriminate.
Defined.

(* ================================================================== *)
(** ** [is_running] and [list] *)

(** X13.  [list] and [is_running] change nothing and agree: for a registry
    with distinct keys, [list] has one entry per tracked identifier, whose
    [running] field is what [is_running] returns for it and is [True]
    exactly when no return code is reported; for an identifier that [list]
    does not show, [is_running] returns [False]. *)
Theorem is_running_agrees_with_list w :
  dict_ok (processes w) ->
  exists ls,
    list_processes w = Ret ls w /\
    dict_keys ls = dict_keys (processes w) /\
    forall id,
      is_running id w =
        Ret (match dict_get id ls with
             | Some st => ParallelRunner.st_running st
             | None => false
             end) w /\
      forall st, dict_get id ls = Some st ->
        ParallelRunner.st_running st
          = negb (is_some (ParallelRunner.st_returncode st)).
Proof.
  intros Hok. destruct (list_spec w Hok) as (ls & Hlist & Hkeys & Hget).
  exists ls. split; [exact Hlist|]. split; [exact Hkeys|].
  intros id. rewrite Hget.
  unfold is_running, ParallelRunner.is_running, ParallelRunner.lookup,
    Popen_poll.
  unfold_m.
  destruct (dict_get id (processes w)) as [i|]; simpl.
  - split; [reflexivity|]. now intros st [= <-].
  - split; [reflexivity | discriminate].
Qed.

Lemma is_running_agrees_with_list_witness :
  dict_ok (processes stubborn_world) /\
  exists ls,
    list_processes stubborn_world = Ret ls stubborn_world /\
    dict_keys ls = dict_keys (processes stubborn_world) /\
    forall id,
      is_running id stubborn_world =
        Ret (match dict_get id ls with
             | Some st => ParallelRunner.st_running st
             | None => false
             end) stubborn_world /\
      forall st, dict_get id ls = Some st ->
        ParallelRunner.st_running st
          = negb (is_some (ParallelRunner.st_returncode st)).
Proof.
  split; [exact (proj1 stubborn_world_ok)|].
  apply (is_running_agrees_with_list stubborn_world).
  exact (proj1 stubborn_world_ok).
Defined.

(* ================================================================== *)
(** ** More about the drain task *)

Lemma set_running_keeps_keys id (d : dict Info) :
  dict_keys (mark_not_running id d) = dict_keys d.
Proof.
  unfold mark_not_running.
  destruct (dict_get id d) as [i|] eqn:E; [|reflexivity].
  apply dict_keys_set_present, dict_get_In. congruence.
Qed.

(** X14.  When a drain task ends (its child has exited), the record found
    under the identifier the task was started with gets its [running] flag
    cleared, whichever process that record now belongs to; when nothing is
    tracked under that identifier, nothing happens.  No record is added or
    removed, the other records are untouched, and no process is
    signalled. *)
Theorem drain_end_clears_flag tid t w e rc :
  nth_error (threads w) tid = Some t ->
  th_finished t = false ->
  exit_at (deref (th_process t) w) = Some (e, rc) ->
  exists w',
    Thread_join tid w = Ret tt w' /\
    dict_keys (processes w') = dict_keys (processes w) /\
    dict_get (th_process_id t) (processes w') =
      option_map (set_running false)
                 (dict_get (th_process_id t) (processes w)) /\
    (forall k, k <> th_process_id t ->
       dict_get k (processes w') = dict_get k (processes w)) /\
    heap w' = heap w.
Proof.
  intros Hth Hfin Hexit. unfold Thread_join.
  rewrite Hth, Hfin, Hexit. eexists. split; [reflexivity|]. simpl.
  split; [apply set_running_keeps_keys|].
  unfold mark_not_running.
  destruct (dict_get (th_process_id t) (processes w)) as [i|] eqn:E; simpl.
  - split; [apply dict_get_set_same|]. split; [|reflexivity].
    intros k Hk. apply dict_get_set_other. congruence.
  - rewrite E. auto.
Qed.

Lemma drain_end_clears_flag_witness :
  nth_error (threads reused_world) 0
    = Some (mkThread 0 "a" true None false) /\
  exit_at (deref 0 reused_world) = Some (3, 0%Z) /\
  dict_get "a" (processes reused_world) = Some (mkInfo 1 (Some 1) true) /\
  exists w',
    Thread_join 0 reused_world = Ret tt w' /\
    dict_keys (processes w') = dict_keys (processes reused_world) /\
    dict_get "a" (processes w') =
      option_map (set_running false)
                 (dict_get "a" (processes reused_world)) /\
    (forall k, k <> "a" ->
       dict_get k (processes w') = dict_get k (processes reused_world)) /\
    heap w' = heap reused_world.
Proof.
  split; [reflexivity|]. split; [reflexivity|]. split; [reflexivity|].
  apply (drain_end_clears_flag 0 (mkThread 0 "a" true None false)
           reused_world 3 0%Z); reflexivity.
Defined.

Lemma rstrip_nl_no_line_feed s : ends_in_newline (rstrip_nl s) = false.
Proof.
  induction s as [|c s IH]; simpl; [reflexivity|].
  destruct (rstrip_nl s) as [|c' r] eqn:E.
  - destruct (Ascii.eqb c newline) eqn:Ec; simpl; auto.
  - exact IH.
Qed.

Lemma ends_in_newline_app a c b :
  ends_in_newline (String.append a (String c b))
  = ends_in_newline (String c b).
Proof.
  induction a as [|x a IH]; [reflexivity|].
  change (String.append (String x a) (String c b))
    with (String x (String.append a (String c b))).
  destruct a; exact IH.
Qed.

Lemma console_line_no_line_feed id out :
  ends_in_newline out = false ->
  ends_in_newline
    (String.append "[" (String.append id (String.append "]: " out))) = false.
Proof.
  intros H.
  change (String.append "[" (String.append id (String.append "]: " out)))
    with (String "["%char
            (String.append id
               (String "]"%char (String ":"%char (String " "%char out))))).
  assert (Hrest : ends_in_newline
            (String.append id
               (String "]"%char (String ":"%char (String " "%char out))))
            = false).
  { rewrite ends_in_newline_app. simpl. destruct out; [reflexivity|exact H]. }
  destruct (String.append id _) eqn:E; [|exact Hrest].
  destruct id; discriminate E.
Qed.

Lemma on_line_no_line_feed show cb id line :
  Forall (fun e => ends_in_newline (payload e) = false)
         (on_line show cb id line).
Proof.
  pose proof (rstrip_nl_no_line_feed line) as H.
  unfold on_line, invoke.
  destruct show, cb; cbn [andb is_some]; repeat constructor; cbn [payload];
    auto.
  now apply console_line_no_line_feed.
Qed.

(** X15.  Whatever the drain task reads, nothing it prints and no argument
    it hands to the callback ends in a line feed. *)
Theorem read_output_strips_line_feeds show cb id reads :
  Forall (fun e => ends_in_newline (payload e) = false)
         (fst (read_output_loop show cb id reads)).
Proof.
  induction reads as [|[line polled] reads IH]; simpl; [constructor|].
  destruct (negb (str_truthy line) && is_some polled); [constructor|].
  destruct (read_output_loop show cb id reads) as [later broke]. simpl in *.
  apply Forall_app. split; [|exact IH].
  destruct (str_truthy line); [apply on_line_no_line_feed | constructor].
Qed.

(* ================================================================== *)
(** ** What holds in every world that calls on the runner reach *)

Lemma make_id_truthy tag p : str_truthy (ParallelRunner.make_id tag p) = true.
Proof.
  unfold ParallelRunner.make_id, or_str.
  destruct tag as [t|]; [|reflexivity].
  destruct (str_truthy t) eqn:E; [exact E | reflexivity].
Qed.

Lemma steady_sound w w' : steady w w' -> registry_sound w -> registry_sound w'.
Proof.
  intros Hst (Hok & Hinj & Hempty).
  split; [now apply (steady_ok w)|].
  destruct Hst as (_ & _ & G). split.
  - intros k k' i i' Hk Hk' E.
    destruct (G k i Hk) as (j & Hj & Ej).
    destruct (G k' i' Hk') as (j' & Hj' & Ej').
    apply (Hinj k k' j j'); congruence.
  - apply dict_mem_false. apply dict_mem_false in Hempty.
    destruct (dict_get "" (processes w')) as [i'|] eqn:E; [|reflexivity].
    destruct (G "" i' E) as (i & Hi & _). congruence.
Qed.

Lemma run_sound script args show cb wt tag child w id w' :
  ParallelRunner.run script args show cb wt tag child w = Ret id w' ->
  registry_sound w -> registry_sound w'.
Proof.
  intros Hrun (Hok & Hinj & Hempty).
  split; [now apply (run_keeps_ok _ _ _ _ _ _ _ _ _ _ Hrun)|].
  pose proof (run_outcome script args show cb wt tag child w) as H.
  rewrite Hrun in H. destruct H as (Hid & _ & Hprocs).
  destruct Hok as [_ Hin].
  assert (Hold : forall k i, k <> id ->
            dict_get k (processes w') = Some i ->
            dict_get k (processes w) = Some i /\ process i < length (heap w)).
  { intros k i Hk Hget. rewrite Hprocs, dict_get_set_other in Hget
      by congruence. split; [assumption | now apply (Hin k)]. }
  assert (Hnew : forall i, dict_get id (processes w') = Some i ->
            process i = length (heap w)).
  { intros i Hget. rewrite Hprocs, dict_get_set_same in Hget.
    now injection Hget as <-. }
  split.
  - intros k k' i i' Hk Hk' E.
    destruct (string_dec k id) as [->|Hne], (string_dec k' id) as [->|Hne'];
      auto.
    + apply Hnew in Hk. apply (Hold k' i' Hne') in Hk'. lia.
    + apply Hnew in Hk'. apply (Hold k i Hne) in Hk. lia.
    + apply (Hinj k k' i i'); auto; now apply Hold.
  - apply dict_mem_false. rewrite Hprocs.
    assert (Hne : id <> "").
    { intros E. pose proof (make_id_truthy tag (c_pid child)) as T.
      unfold chosen_id in Hid. rewrite <- Hid, E in T. discriminate. }
    rewrite dict_get_set_other by assumption. now apply dict_mem_false.
Qed.

Lemma perform_sound c w :
  match perform c w with
  | Ret _ w' => registry_sound w -> registry_sound w'
  | Raise _ w' => w' = w
  | Hang => True
  end.
Proof.
  destruct c; simpl; unfold_m.
  - destruct (ParallelRunner.run script_name args show_output cb wait0 tag
                child w) as [id w'|e w'|] eqn:Hrun; auto.
    + now apply (run_sound _ _ _ _ _ _ _ _ _ _ Hrun).
    + pose proof (run_outcome script_name args show_output cb wait0 tag
                    child w) as H.
      now rewrite Hrun in H.
  - destruct (stop_returns process_id force w) as (w' & Hstop & _).
    rewrite Hstop. apply steady_sound. eapply stop_steady; eassumption.
  - unfold ParallelRunner.stop_all, ParallelRunner.snapshot. unfold_m.
    destruct (stop_each_returns (dict_keys (processes w)) force w)
      as (w' & Heach & Hst).
    rewrite Heach. now apply steady_sound.
  - unfold ParallelRunner.is_running, ParallelRunner.lookup, Popen_poll.
    unfold_m. destruct (dict_get process_id (processes w)); auto.
  - auto.
  - pose proof (wait_frame process_id timeout w) as H.
    destruct (ParallelRunner.wait process_id timeout w);
      [now apply steady_sound | contradiction | exact I].
  - unfold ParallelRunner.wait_all. unfold_m.
    pose proof (wait_each_frame
                  (map (fun kv => process (snd kv)) (processes w)) timeout w)
      as H.
    destruct (ParallelRunner.wait_each _ timeout w);
      [now apply steady_sound | contradiction | exact I].
  - pose proof (Thread_join_frame tid w) as H.
    destruct (Thread_join tid w);
      [now apply steady_sound | contradiction | exact I].
  - apply steady_sound. apply steady_same; reflexivity.
Qed.

Lemma history_sound l w : history l w -> registry_sound w.
Proof.
  induction 1 as [files exe | l w c r w' Hh IH Hp | l w c e w' Hh IH Hp].
  - split; [|split].
    + split; [constructor|]. simpl. discriminate.
    + simpl. discriminate.
    + reflexivity.
  - pose proof (perform_sound c w) as H. rewrite Hp in H. auto.
  - pose proof (perform_sound c w) as H. rewrite Hp in H. now subst.
Qed.

(** X16.  In every world reached from a new runner by calls made one after
    the other (launches, stops, waits, queries, drain tasks ending, time
    passing): the tracked identifiers are pairwise distinct, none is the
    empty string, each is one that [run] has returned; every record holds a
    [Popen] object that exists, and two identifiers never hold the same
    one. *)
Theorem reachable_registry_sound l w :
  history l w ->
  NoDup (dict_keys (processes w)) /\
  dict_mem "" (processes w) = false /\
  (forall k, In k (dict_keys (processes w)) -> In k l) /\
  (forall k i, dict_get k (processes w) = Some i ->
               process i < length (heap w)) /\
  (forall k k' i i',
     dict_get k (processes w) = Some i ->
     dict_get k' (processes w) = Some i' ->
     process i = process i' -> k = k').
Proof.
  intros Hh.
  destruct (history_sound l w Hh) as ((Hok & Hin) & Hinj & Hempty).
  destruct (history_invariant l w Hh) as [_ Hk].
  repeat split; auto.
Qed.

Lemma reused_world_history : history ["a"; "a"] reused_world.
Proof.
  apply (history_ret ["a"]
           (world_after (run "a.py" [] false (Some "a") brief) sample_world)
           (CallRun "b.py" (Some []) true None false (Some "a") polite)
           (Some "a") reused_world).
  - apply (history_ret [] sample_world
             (CallRun "a.py" (Some []) true None false (Some "a") brief)
             (Some "a")).
    + apply history_init.
    + reflexivity.
  - reflexivity.
Qed.

Lemma reachable_registry_sound_witness :
  history ["a"; "a"] reused_world /\
  NoDup (dict_keys (processes reused_world)) /\
  dict_mem "" (processes reused_world) = false /\
  (forall k, In k (dict_keys (processes reused_world)) ->
             In k ["a"; "a"]) /\
  (forall k i, dict_get k (processes reused_world) = Some i ->
               process i < length (heap reused_world)) /\
  (forall k k' i i',
     dict_get k (processes reused_world) = Some i ->
     dict_get k' (processes reused_world) = Some i' ->
     process i = process i' -> k = k').
Proof.
  split; [exact reused_world_history|].
  apply (reachable_registry_sound ["a"; "a"] reused_world).
  exact reused_world_history.
Defined.

(** X17.  In a reachable world, [stop] on one identifier leaves every
    other tracked process alone: its record stays, and its [Popen] object
    is as before, so no signal went to it. *)
Theorem stop_spares_other_processes l w id (force : bool) k i :
  history l w ->
  k <> id ->
  dict_get k (processes w) = Some i ->
  exists w',
    ParallelRunner.stop id force w = Ret (dict_mem id (processes w)) w' /\
    dict_get k (processes w') = Some i /\
    deref (process i) w' = deref (process i) w.
Proof.
  intros Hh Hne Hk.
  destruct (history_sound l w Hh) as (_ & Hinj & _).
  destruct (stop_returns id force w)
    as (w' & Hstop & Hp & _ & _ & _ & _ & _ & _ & Hd).
  exists w'. split; [exact Hstop|]. split.
  - rewrite Hp, dict_get_remove_other by congruence. exact Hk.
  - apply Hd. intros j Hj E. apply Hne. symmetry.
    apply (Hinj id k j i); auto.
Qed.

Lemma two_tracked_history : history ["proc_4243"; "proc_4242"] pair_world.
Proof.
  apply (history_ret ["proc_4242"] stubborn_world
           (CallRun "a.py" (Some []) true None false None polite)
           (Some "proc_4243")).
  - exact stubborn_world_history.
  - reflexivity.
Qed.

Lemma stop_spares_other_processes_witness :
  history ["proc_4243"; "proc_4242"] pair_world /\
  "proc_4242" <> "proc_4243" /\
  dict_get "proc_4242" (processes pair_world)
    = Some (mkInfo 0 (Some 0) true) /\
  exists w',
    ParallelRunner.stop "proc_4243" true pair_world
      = Ret (dict_mem "proc_4243" (processes pair_world)) w' /\
    dict_get "proc_4242" (processes w') = Some (mkInfo 0 (Some 0) true) /\
    deref 0 w' = deref 0 pair_world.
Proof.
  split; [exact two_tracked_history|].
  split; [discriminate|]. split; [reflexivity|].
  apply (stop_spares_other_processes ["proc_4243"; "proc_4242"] pair_world
           "proc_4243" true "proc_4242" (mkInfo 0 (Some 0) true)).
  - exact two_tracked_history.
  - discriminate.
  - reflexivity.
Defined.

(* ================================================================== *)
(** ** [class Script] *)

Lemma is_running_eq id w :
  is_running id w =
  Ret (match dict_get id (processes w) with
       | Some i => negb (is_some (poll_at (now w) (deref (process i) w)))
       | None => false
       end) w.
Proof.
  unfold is_running, ParallelRunner.is_running, ParallelRunner.lookup,
    Popen_poll.
  unfold_m. now destruct (dict_get id (processes w)).
Qed.

(** [__exit__] of a script that holds an identifier. *)
Lemma Script_exit_outcome s id w :
  Script.has_pid s = Some id ->
  exists w',
    Script.exit s w = Ret tt w' /\
    is_running id w' = Ret false w' /\
    now w <= now w' <= now w + 5.
Proof.
  intros Hpid. unfold Script.exit. rewrite Hpid.
  unfold bind. rewrite is_running_eq.
  destruct (dict_get id (processes w)) as [i|] eqn:Hget.
  - destruct (poll_at (now w) (deref (process i) w)) eqn:Hpoll; simpl.
    + exists w. rewrite is_running_eq, Hget, Hpoll.
      repeat split; auto; lia.
    + unfold stop.
      destruct (stop_returns id false w)
        as (w' & Hstop & Hp & _ & _ & _ & _ & _ & Hn & _).
      rewrite Hstop. exists w'. split; [reflexivity|].
      rewrite is_running_eq, Hp, dict_get_remove_same. auto.
  - exists w. rewrite is_running_eq, Hget. repeat split; auto; lia.
Qed.

(** X18.  [__exit__] never raises and takes at most 5 seconds, and once it
    is done [is_alive()] answers [False]: the process has exited and was
    left in the registry, or it was sent SIGTERM and untracked, whether or
    not it then exits. *)
Theorem Script_exit_leaves_nothing_alive s w :
  exists w',
    Script.exit s w = Ret tt w' /\
    Script.is_alive s w' = Ret false w' /\
    now w <= now w' <= now w + 5.
Proof.
  destruct (Script.has_pid s) as [id|] eqn:Hpid.
  - destruct (Script_exit_outcome s id w Hpid) as (w' & Hx & Hr & Hn).
    exists w'. unfold Script.is_alive. rewrite Hpid. auto.
  - exists w. unfold Script.exit, Script.is_alive. rewrite Hpid.
    repeat split; auto; lia.
Qed.

(** X19.  [__exit__] on a script whose process has already exited does
    nothing at all: the record of the process stays in the registry. *)
Theorem Script_exit_keeps_exited_record s w id i :
  Script.has_pid s = Some id ->
  dict_get id (processes w) = Some i ->
  poll_at (now w) (deref (process i) w) <> None ->
  Script.exit s w = Ret tt w /\ dict_get id (processes w) = Some i.
Proof.
  intros Hpid Hget Hpoll. split; [|exact Hget].
  unfold Script.exit. rewrite Hpid. unfold bind.
  rewrite is_running_eq, Hget.
  destruct (poll_at (now w) (deref (process i) w)); [reflexivity|congruence].
Qed.

Lemma Script_exit_keeps_exited_record_witness :
  Script.has_pid (Script.mk "a.py" [] true None (Some "proc_4244"))
    = Some "proc_4244" /\
  dict_get "proc_4244" (processes waited_world)
    = Some (mkInfo 0 (Some 0) false) /\
  poll_at (now waited_world) (deref 0 waited_world) <> None /\
  Script.exit (Script.mk "a.py" [] true None (Some "proc_4244"))
      waited_world = Ret tt waited_world /\
  dict_get "proc_4244" (processes waited_world)
    = Some (mkInfo 0 (Some 0) false).
Proof.
  split; [reflexivity|]. split; [reflexivity|]. split; [discriminate|].
  apply (Script_exit_keeps_exited_record
           (Script.mk "a.py" [] true None (Some "proc_4244")) waited_world
           "proc_4244" (mkInfo 0 (Some 0) false)).
  - reflexivity.
  - reflexivity.
  - discriminate.
Defined.

Lemma Script_enter_outcome s child w :
  existsb (String.eqb (Script.script_name s)) (fs w) = true ->
  match Script.enter s child w with
  | Ret s' w1 =>
      Script.has_pid s' = Some (chosen_id (Script.kw_tag s) child)
  | Raise _ _ => False
  | Hang => Script.kw_wait s = true /\ c_life child = None
  end.
Proof.
  intros Hex.
  assert (Hid : forall a b c d,
            Script.has_pid
              (Script.mk a b c d (Some (chosen_id (Script.kw_tag s) child)))
            = Some (chosen_id (Script.kw_tag s) child)).
  { intros. unfold Script.has_pid, chosen_id. simpl.
    now rewrite make_id_truthy. }
  unfold Script.enter, run. unfold_m.
  destruct (Script.kw_wait s) eqn:Hw.
  - destruct (c_life child) as [[n rc]|] eqn:Hl.
    + rewrite (run_waited _ _ _ _ _ _ _ n rc Hex Hl). apply Hid.
    + rewrite run_blocked by assumption. auto.
  - rewrite run_started by assumption. apply Hid.
Qed.

(** X20.  The scope [with Script(...) as s: body], for a script that
    exists: however the body is left, by returning or by raising, the
    scope ends with [is_running] answering [False] for the launched
    identifier, and what the body returned or raised is what the scope
    returns or raises.  The scope never ends only when the launch waits for
    a child that never exits, or the body itself never ends. *)
Theorem with_Script_releases {A} s child (body : Script.t -> M A) w :
  existsb (String.eqb (Script.script_name s)) (fs w) = true ->
  match Script.with_ s child body w with
  | Ret a w3 =>
      is_running (chosen_id (Script.kw_tag s) child) w3 = Ret false w3 /\
      exists s' w1 w2, Script.enter s child w = Ret s' w1 /\
                       body s' w1 = Ret a w2
  | Raise e w3 =>
      is_running (chosen_id (Script.kw_tag s) child) w3 = Ret false w3 /\
      exists s' w1 w2, Script.enter s child w = Ret s' w1 /\
                       body s' w1 = Raise e w2
  | Hang =>
      (Script.kw_wait s = true /\ c_life child = None) \/
      exists s' w1, Script.enter s child w = Ret s' w1 /\ body s' w1 = Hang
  end.
Proof.
  intros Hex. unfold Script.with_.
  pose proof (Script_enter_outcome s child w Hex) as He.
  destruct (Script.enter s child w) as [s' w1|e w1|];
    [|contradiction|now left].
  assert (Hafter : forall w2, exists w3,
            Script.exit s' w2 = Ret tt w3 /\
            is_running (chosen_id (Script.kw_tag s) child) w3
              = Ret false w3).
  { intros w2.
    destruct (Script_exit_outcome s' _ w2 He) as (w3 & Hx & Ha & _).
    exists w3. auto. }
  destruct (body s' w1) as [a w2|e w2|] eqn:Hb.
  - destruct (Hafter w2) as (w3 & -> & Hr). split; [exact Hr|].
    exists s', w1, w2. auto.
  - destruct (Hafter w2) as (w3 & -> & Hr). split; [exact Hr|].
    exists s', w1, w2. auto.
  - right. exists s', w1. auto.
Qed.

Lemma with_Script_releases_witness :
  existsb (String.eqb (Script.script_name (Script.init "a.py" [] false None)))
          (fs sample_world) = true /\
  match Script.with_ (Script.init "a.py" [] false None) stubborn
          (fun s => raise (KeyError "boom")) sample_world with
  | Ret a w3 =>
      is_running "proc_4242" w3 = Ret false w3 /\
      exists s' w1 w2,
        Script.enter (Script.init "a.py" [] false None) stubborn sample_world
          = Ret s' w1 /\
        @raise unit (KeyError "boom") w1 = Ret a w2
  | Raise e w3 =>
      is_running "proc_4242" w3 = Ret false w3 /\
      exists s' w1 w2,
        Script.enter (Script.init "a.py" [] false None) stubborn sample_world
          = Ret s' w1 /\
        @raise unit (KeyError "boom") w1 = Raise e w2
  | Hang =>
      (false = true /\ c_life stubborn = None) \/
      exists s' w1,
        Script.enter (Script.init "a.py" [] false None) stubborn sample_world
          = Ret s' w1 /\
        @raise unit (KeyError "boom") w1 = Hang
  end.
Proof.
  split; [reflexivity|].
  apply (with_Script_releases (Script.init "a.py" [] false None) stubborn
           (fun _ => @raise unit (KeyError "boom")) sample_world).
  reflexivity.
Defined.

(* ================================================================== *)
(** ** [main.py]: start-up and shutdown *)



(** X22.  When the image cannot be opened, the program ends with
    [FileNotFoundError] after the limiter has been launched and the window
    created, before the window is given a geometry.  Nothing stops the
    limiter on that path: it is tracked under [proc_<pid>], no signal was
    sent to it, and unless it ends by itself it is running. *)
Theorem main_missing_image_leaves_limiter
    hw_write screen_width limiter w w1 :
  hw_write w = Ret tt w1 ->
  existsb (String.eqb "limiter.py") (fs w1) = true ->
  let id := String.append "proc_" (str_int (c_pid limiter)) in
  exists root w2,
    Main.main hw_write None screen_width limiter w
      = Main.Crashed (FileNotFoundError "img/glados.png") (Some root) w2 /\
    Main.geometry root = None /\
    dict_get id (processes w2) =
      Some (mkInfo (length (heap w1)) (Some (length (threads w1))) true) /\
    signals (deref (length (heap w1)) w2) = [] /\
    (c_life limiter = None -> is_running id w2 = Ret true w2).
Proof.
  intros Hhw Hex id. unfold Main.main, run. rewrite Hhw.
  rewrite run_started by assumption.
  change (chosen_id None limiter) with id.
  eexists. eexists. split; [reflexivity|]. simpl.
  split; [reflexivity|]. split; [apply dict_get_set_same|].
  assert (Hd : forall x, nth (length (heap w1)) (heap w1 ++ [x]) no_popen = x)
    by (intros; apply nth_middle).
  split.
  - unfold deref. simpl. now rewrite Hd.
  - intros Hlife. rewrite is_running_eq. simpl.
    rewrite dict_get_set_same. simpl. unfold deref. simpl. rewrite Hd.
    unfold poll_at, spawned. simpl. now rewrite Hlife.
Qed.

Lemma main_missing_image_leaves_limiter_witness :
  ret tt sample_world = Ret tt sample_world /\
  existsb (String.eqb "limiter.py") (fs sample_world) = true /\
  exists root w2,
    Main.main (ret tt) None 1920 stubborn sample_world
      = Main.Crashed (FileNotFoundError "img/glados.png") (Some root) w2 /\
    Main.geometry root = None /\
    dict_get "proc_4242" (processes w2) = Some (mkInfo 0 (Some 0) true) /\
    signals (deref 0 w2) = [] /\
    (c_life stubborn = None -> is_running "proc_4242" w2 = Ret true w2).
Proof.
  split; [reflexivity|]. split; [reflexivity|].
  apply (main_missing_image_leaves_limiter (ret tt) 1920%Z stubborn
           sample_world sample_world); reflexivity.
Defined.

Lemma main_stop_all_spec root w :
  exists w',
    Main.stop_all root w
      = Main.Exited 0
          (Main.mkRoot (Main.overrideredirect root) (Main.topmost root)
             (Main.transparentcolor root) (Main.geometry root)
             (Main.label_bg root) (Main.bindings root) true) w' /\
    processes w' = [] /\
    now w <= now w' <= now w + 5 * length (processes w) /\
    (forall k i, dict_get k (processes w) = Some i ->
       poll_at (now w') (deref (process i) w') <> None \/
       In SIGTERM (signals (deref (process i) w'))) /\
    (forall h, In SIGKILL (signals (deref h w')) ->
               In SIGKILL (signals (deref h w))).
Proof.
  destruct (stop_each_all_keys false w) as (w' & Hall & Hempty & Hn).
  exists w'. split.
  { unfold Main.stop_all, stop_all, ParallelRunner.stop_all,
      ParallelRunner.snapshot.
    unfold_m. now rewrite Hall. }
  split; [exact Hempty|]. split; [exact Hn|]. split.
  - intros k i Hk.
    destruct (stop_each_settles _ _ _ _ Hall) as [_ Hnew].
    destruct (Hnew k i) as [H|[_ H]]; auto.
    apply dict_get_In. congruence.
  - intros h. exact (stop_each_graceful_never_kills _ w w' h Hall).
Qed.

(** X23.  From start-up to shutdown.  With [limiter.py] and the image in
    place, the program reaches the event loop with the limiter tracked and
    a window that is frameless, topmost, transparent on white, placed by
    the geometry string, and bound to Escape.  From then on, in whatever
    world a key arrives: any key but Escape changes nothing; Escape ends
    the program with exit code 0, the window destroyed and the registry
    empty, after at most 5 seconds per tracked process, each of which has
    exited or been sent SIGTERM, and none of which was sent SIGKILL. *)
Theorem overlay_lifecycle hw_write W H screen_width limiter w w1 :
  hw_write w = Ret tt w1 ->
  existsb (String.eqb "limiter.py") (fs w1) = true ->
  exists root w2,
    Main.main hw_write (Some (W, H)) screen_width limiter w
      = Main.Mainloop root w2 /\
    root = Main.mkRoot true true (Some "white")
             (Some (geometry_argument W H screen_width)) (Some "white")
             ["<Escape>"] false /\
    dict_mem (String.append "proc_" (str_int (c_pid limiter))) (processes w2)
      = true /\
    forall w',
      (forall key, key <> "<Escape>" ->
         Main.on_key key root w' = Main.Continue root w') /\
      exists root' w3,
        Main.on_key "<Escape>" root w' = Main.Exited 0 root' w3 /\
        Main.destroyed root' = true /\
        processes w3 = [] /\
        now w' <= now w3 <= now w' + 5 * length (processes w') /\
        (forall k i, dict_get k (processes w') = Some i ->
           poll_at (now w3) (deref (process i) w3) <> None \/
           In SIGTERM (signals (deref (process i) w3))) /\
        (forall h, In SIGKILL (signals (deref h w3)) ->
                   In SIGKILL (signals (deref h w'))).
Proof.
  intros Hhw Hex. unfold Main.main, run. rewrite Hhw.
  rewrite run_started by assumption.
  eexists. eexists. split; [reflexivity|]. split; [reflexivity|].
  split.
  { simpl. unfold dict_mem.
    change (chosen_id None limiter)
      with (String.append "proc_" (str_int (c_pid limiter))).
    now rewrite dict_get_set_same. }
  intros w'. split.
  - intros key Hkey. unfold Main.on_key. simpl.
    apply String.eqb_neq in Hkey. now rewrite Hkey.
  - destruct (main_stop_all_spec
                (Main.mkRoot true true (Some "white")
                   (Some (geometry_argument W H screen_width))
                   (Some "white") ["<Escape>"] false) w')
      as (w3 & Hstop & Hrest).
    simpl in Hstop.
    exists (Main.mkRoot true true (Some "white")
              (Some (geometry_argument W H screen_width)) (Some "white")
              ["<Escape>"] true), w3.
    split; [|split; [reflexivity | exact Hrest]].
    unfold Main.on_key. simpl. exact Hstop.
Qed.

Lemma overlay_lifecycle_witness :
  ret tt sample_world = Ret tt sample_world /\
  existsb (String.eqb "limiter.py") (fs sample_world) = true /\
  exists root w2,
    Main.main (ret tt) (Some (200, 300)%Z) 1920 stubborn sample_world
      = Main.Mainloop root w2 /\
    root = Main.mkRoot true true (Some "white") (Some "200x300+1700+0")
             (Some "white") ["<Escape>"] false /\
    dict_mem "proc_4242" (processes w2) = true /\
    forall w',
      (forall key, key <> "<Escape>" ->
         Main.on_key key root w' = Main.Continue root w') /\
      exists root' w3,
        Main.on_key "<Escape>" root w' = Main.Exited 0 root' w3 /\
        Main.destroyed root' = true /\
        processes w3 = [] /\
        now w' <= now w3 <= now w' + 5 * length (processes w') /\
        (forall k i, dict_get k (processes w') = Some i ->
           poll_at (now w3) (deref (process i) w3) <> None \/
           In SIGTERM (signals (deref (process i) w3))) /\
        (forall h, In SIGKILL (signals (deref h w3)) ->
                   In SIGKILL (signals (deref h w'))).
Proof.
  split; [reflexivity|]. split; [reflexivity|].
  apply (overlay_lifecycle (ret tt) 200%Z 300%Z 1920%Z stubborn sample_world
           sample_world); reflexivity.
Defined.

(* ================================================================== *)
(** ** The module-level [run] and the methods of a [Script] *)

(** X24.  The module-level [run(script, *args, wait=True)] starts the
    child as [<interpreter> <script> <args...>] and echoes its output on
    the console: for a child that prints [bodies] line by line and exits,
    the console has received [[<id>]: <body>] for each of them, in the
    order in which the child wrote them, when [run] returns. *)
Theorem run_echoes_to_console script args tag child w n rc bodies :
  existsb (String.eqb script) (fs w) = true ->
  c_life child = Some (n, rc) ->
  c_stdout child = map (fun b => String.append b nl) bodies ->
  Forall (fun b => no_newline b = true) bodies ->
  exists w',
    run script args true tag child w = Ret (chosen_id tag child) w' /\
    cmd (deref (length (heap w)) w') = executable w :: script :: args /\
    trace w' =
      trace w ++
      map (fun b =>
             Print (String.append "["
                      (String.append (chosen_id tag child)
                         (String.append "]: " b))))
          bodies.
Proof.
  intros Hex Hlife Hout Hb. unfold run.
  eexists. split; [now apply (run_waited _ _ _ _ _ _ _ n rc)|].
  simpl. split.
  - unfold deref. simpl. rewrite nth_middle. simpl. now destruct args.
  - rewrite Hout, read_output_loop_lines by assumption.
    assert (Hmap : forall id l,
              flat_map (dispatch_spec true None id) l =
              map (fun b => Print (String.append "["
                                     (String.append id
                                        (String.append "]: " b)))) l).
    { intros id l. induction l as [|b l IH]; simpl;
        [reflexivity | now rewrite IH]. }
    simpl. now rewrite Hmap.
Qed.

Lemma run_echoes_to_console_witness :
  existsb (String.eqb "a.py") (fs sample_world) = true /\
  c_life brief = Some (3, 0%Z) /\
  c_stdout brief = map (fun b => String.append b nl) ["A"; "B"] /\
  exists w',
    run "a.py" ["-v"; "1"] true None brief sample_world
      = Ret "proc_4244" w' /\
    cmd (deref 0 w') = ["python"; "a.py"; "-v"; "1"] /\
    trace w' = [Print "[proc_4244]: A"; Print "[proc_4244]: B"].
Proof.
  split; [reflexivity|]. split; [reflexivity|]. split; [reflexivity|].
  apply (run_echoes_to_console "a.py" ["-v"; "1"] None brief sample_world
           3 0%Z ["A"; "B"]);
    try reflexivity.
  repeat constructor.
Defined.

(** X25.  [Script.stop()] on a launched script never raises and leaves the
    identifier untracked; calling it again, or leaving the scope after it,
    changes nothing, and [is_alive()] answers [False]. *)
Theorem Script_stop_is_final s id w :
  Script.has_pid s = Some id ->
  exists w',
    Script.stop s w = Ret tt w' /\
    dict_mem id (processes w') = false /\
    Script.stop s w' = Ret tt w' /\
    Script.exit s w' = Ret tt w' /\
    Script.is_alive s w' = Ret false w'.
Proof.
  intros Hpid. unfold Script.stop, Script.exit, Script.is_alive.
  rewrite Hpid. unfold stop, bind.
  destruct (stop_returns id false w) as (w' & Hstop & Hp & _).
  assert (Hgone : dict_get id (processes w') = None)
    by (rewrite Hp; apply dict_get_remove_same).
  exists w'. rewrite Hstop, is_running_eq, Hgone.
  rewrite (stop_untracked id false w' Hgone).
  repeat split. now apply dict_mem_false.
Qed.

Lemma Script_stop_is_final_witness :
  Script.has_pid (Script.mk "limiter.py" [] false None (Some "proc_4242"))
    = Some "proc_4242" /\
  exists w',
    Script.stop (Script.mk "limiter.py" [] false None (Some "proc_4242"))
      stubborn_world = Ret tt w' /\
    dict_mem "proc_4242" (processes w') = false /\
    Script.stop (Script.mk "limiter.py" [] false None (Some "proc_4242")) w'
      = Ret tt w' /\
    Script.exit (Script.mk "limiter.py" [] false None (Some "proc_4242")) w'
      = Ret tt w' /\
    Script.is_alive (Script.mk "limiter.py" [] false None (Some "proc_4242"))
      w' = Ret false w'.
Proof.
  split; [reflexivity|].
  apply (Script_stop_is_final
           (Script.mk "limiter.py" [] false None (Some "proc_4242"))
           "proc_4242" stubborn_world).
  reflexivity.
Defined.
